(** * data_sample.py: the cleaning pipeline and the data dictionary

    A shallow embedding of [load_data], [clean_data] and
    [write_data_dictionary] of [data_sample.py], together with the part of
    pandas and of Python's [str] that those functions call.

    pandas is the 2.x line.  What the program relies on, as that line has it:
    - [astype(str)] takes [str] of every element, a missing one included
      ("None", "nan", "<NA>", "NaT");
    - the [.str] methods leave a missing element as it is;
    - [pd.to_datetime] infers one layout from the first value that is not
      missing and reads every value with it (since 2.0); under
      [errors="coerce"] a value that does not match becomes NaT;
    - [pd.to_numeric] with [errors="coerce"] gives NaN for text that is not a
      number;
    - comparing an [object] column that holds text with a number raises
      [TypeError];
    - [drop_duplicates] takes two missing values of a column for the same.

    Modelling choices:
    - text is a [string] of ASCII characters; characters above 127 are
      neither white space nor cased;
    - a binary64 number is the rational it denotes, NaN is the missing
      float; rounding and the infinities are outside the model;
    - a [datetime64[ns]] value is its number of nanoseconds since the epoch;
    - an [object] column holds text and missing markers, as [read_csv] and
      the example dataset build them;
    - a DataFrame is its ordered list of (label, Series) pairs; the row index
      is positional;
    - DataFrame objects live in a heap, so that in-place updates and the
      copies taken by the program are visible. *)

From Stdlib Require Import Ascii String QArith.
From stdpp Require Import gmap strings list.

Local Open Scope string_scope.
Local Open Scope Z_scope.

(** ** Python [str] methods *)

Module PyStr.

Definition code (c : ascii) : N := N_of_ascii c.

(** [str.isspace] on one character: TAB..CR, FS..US and SPACE. *)
Definition isspace (c : ascii) : bool :=
  ((9 <=? code c) && (code c <=? 13) || (28 <=? code c) && (code c <=? 32))%N.

Definition isupper (c : ascii) : bool :=
  ((65 <=? code c) && (code c <=? 90))%N.

Definition islower (c : ascii) : bool :=
  ((97 <=? code c) && (code c <=? 122))%N.

Definition iscased (c : ascii) : bool := isupper c || islower c.

Definition tolower (c : ascii) : ascii :=
  if isupper c then ascii_of_N (code c + 32) else c.

Definition toupper (c : ascii) : ascii :=
  if islower c then ascii_of_N (code c - 32) else c.

Definition chars (s : string) : list ascii := list_ascii_of_string s.
Definition text (l : list ascii) : string := string_of_list_ascii l.

Fixpoint lstrip_chars (l : list ascii) : list ascii :=
  match l with
  | c :: l' => if isspace c then lstrip_chars l' else l
  | [] => []
  end.

Definition rstrip_chars (l : list ascii) : list ascii :=
  rev (lstrip_chars (rev l)).

(** [s.strip()] *)
Definition strip (s : string) : string :=
  text (rstrip_chars (lstrip_chars (chars s))).

(** [s.lower()] *)
Definition lower (s : string) : string := text (map tolower (chars s)).

(** [s.replace(" ", "_")]: the pattern is one character long. *)
Definition replace_char (a b : ascii) (s : string) : string :=
  text (map (fun c => if Ascii.eqb c a then b else c) (chars s)).

(** [s.title()]: a cased character is put in upper case when the character
    before it is not cased, and in lower case when it is. *)
Fixpoint title_chars (previous_is_cased : bool) (l : list ascii)
  : list ascii :=
  match l with
  | [] => []
  | c :: l' =>
      if iscased c
      then (if previous_is_cased then tolower c else toupper c)
             :: title_chars true l'
      else c :: title_chars false l'
  end.

Definition title (s : string) : string := text (title_chars false (chars s)).

(** Decimal rendering of a count, [str(n)] for [n >= 0]. *)
Fixpoint digits_fuel (fuel : nat) (n : N) (acc : list ascii) : list ascii :=
  match fuel with
  | O => acc
  | S fuel' =>
      let acc' := ascii_of_N (48 + n mod 10) :: acc in
      if (n <? 10)%N then acc' else digits_fuel fuel' (n / 10) acc'
  end.

Definition str_of_N (n : N) : string :=
  text (digits_fuel (S (N.to_nat (N.log2 n))) n []).

Definition str_of_Z (z : Z) : string :=
  if z <? 0 then "-" ++ str_of_N (Z.to_N (- z)) else str_of_N (Z.to_N z).

End PyStr.

(** ** Column-name normalisation: [c.strip().lower().replace(" ", "_")] *)

Definition normalize_column (c : string) : string :=
  PyStr.replace_char " "%char "_"%char (PyStr.lower (PyStr.strip c)).

(** ** Values, Series and DataFrames *)

(** What a cell of an [object] column holds: one of the three missing
    markers or a [str]. *)
Inductive pyobj :=
| PyNone
| PyNaN
| PyNA
| PyStr (s : string).

(** A Series is an array of one dtype.  [None] is NaN in a [float64] array
    and NaT in a [datetime64[ns]] array; an [int64] array has no missing
    value. *)
Inductive Series :=
| ObjectS (l : list pyobj)
| Int64S (l : list Z)
| Float64S (l : list (option Q))
| Datetime64S (l : list (option Z)).

Abbreviation DataFrame := (list (string * Series)).

Inductive exn := TypeError | AttributeError | ValueError | SystemError.

Inductive result (A : Type) :=
| Ok (a : A)
| Raise (e : exn).
Arguments Ok {A} a.
Arguments Raise {A} e.

#[global] Instance result_ret : MRet result := @Ok.
#[global] Instance result_bind : MBind result := fun A B f r =>
  match r with Ok a => f a | Raise e => Raise e end.

Definition int64_min : Z := - 2 ^ 63.
Definition int64_max : Z := 2 ^ 63 - 1.

Definition series_len (s : Series) : nat :=
  match s with
  | ObjectS l => length l
  | Int64S l => length l
  | Float64S l => length l
  | Datetime64S l => length l
  end.

(** [str(s.dtype)] *)
Definition dtype_str (s : Series) : string :=
  match s with
  | ObjectS _ => "object"
  | Int64S _ => "int64"
  | Float64S _ => "float64"
  | Datetime64S _ => "datetime64[ns]"
  end.

Definition obj_isna (o : pyobj) : bool :=
  match o with PyStr _ => false | _ => true end.

Definition opt_isna {A} (o : option A) : bool :=
  match o with Some _ => false | None => true end.

(** [s.isna()] *)
Definition isna (s : Series) : list bool :=
  match s with
  | ObjectS l => obj_isna <$> l
  | Int64S l => (fun _ => false) <$> l
  | Float64S l => opt_isna <$> l
  | Datetime64S l => opt_isna <$> l
  end.

(** [mask.sum()] *)
Definition count_true (mask : list bool) : nat :=
  length (filter (fun b => b = true) mask).

(** Boolean-mask selection, [a[mask]]. *)
Fixpoint select {A} (mask : list bool) (l : list A) : list A :=
  match mask, l with
  | b :: mask', x :: l' => if b then x :: select mask' l' else select mask' l'
  | _, _ => []
  end.

Definition select_series (mask : list bool) (s : Series) : Series :=
  match s with
  | ObjectS l => ObjectS (select mask l)
  | Int64S l => Int64S (select mask l)
  | Float64S l => Float64S (select mask l)
  | Datetime64S l => Datetime64S (select mask l)
  end.

(** Masked assignment of one scalar, [a[mask] = v]. *)
Definition putmask {A} (mask : list bool) (v : A) (l : list A) : list A :=
  zip_with (fun (b : bool) x => if b then v else x) mask l.

Definition Qlt_bool (x y : Q) : bool := negb (Qle_bool y x).

(** *** DataFrame accessors *)

Definition columns (df : DataFrame) : list string := df.*1.

Definition nrows (df : DataFrame) : nat :=
  match df with
  | [] => O
  | (_, s) :: _ => series_len s
  end.

(** [label in df.columns] *)
Definition has_column (label : string) (df : DataFrame) : bool :=
  bool_decide (label ∈ columns df).

(** The columns labelled [label] replaced by their image under [g]. *)
Definition map_column (label : string) (g : Series -> Series) (df : DataFrame)
  : DataFrame :=
  (fun c : string * Series => if decide (c.1 = label) then (c.1, g c.2) else c)
    <$> df.

(** [df[label]] for a label that is present.  A label carried by exactly one
    column selects its Series.  A label carried by several columns selects a
    DataFrame, on which each of the steps of [clean_data] and the [.dtype] of
    [write_data_dictionary] fail: the model raises [e], the exception of the
    caller, at the selection. *)
Definition getitem (e : exn) (label : string) (df : DataFrame)
  : result Series :=
  match filter (fun c => c.1 = label) df with
  | [(_, s)] => Ok s
  | _ => Raise e
  end.

(** [df[label] = s] for a label that is present. *)
Definition setitem (label : string) (s : Series) (df : DataFrame)
  : DataFrame :=
  map_column label (fun _ => s) df.

(** [df.columns = names] *)
Definition set_columns (names : list string) (df : DataFrame) : DataFrame :=
  zip names df.*2.

(** ** Parsing of numbers and dates *)

Module Parse.
Import PyStr.

Definition isdigit (c : ascii) : bool :=
  ((48 <=? code c) && (code c <=? 57))%N.

Definition digit (c : ascii) : Z := Z.of_N (code c) - 48.

Definition number_of_digits (l : list ascii) : Z :=
  fold_left (fun acc c => 10 * acc + digit c) l 0.

(** The longest prefix of digits, and the rest. *)
Fixpoint span_digits (l : list ascii) : list ascii * list ascii :=
  match l with
  | c :: l' =>
      if isdigit c
      then let '(ds, rest) := span_digits l' in (c :: ds, rest)
      else ([], l)
  | [] => ([], [])
  end.

(** White space of the C tokenizer: SPACE and TAB..CR. *)
Definition isspace_ascii (c : ascii) : bool :=
  ((code c =? 32) || (9 <=? code c) && (code c <=? 13))%N.

Fixpoint skip_space (l : list ascii) : list ascii :=
  match l with
  | c :: l' => if isspace_ascii c then skip_space l' else l
  | [] => []
  end.

Inductive number :=
| Integer (z : Z)
| Floating (q : Q).

Definition signed (negative : bool) (z : Z) : Z :=
  if negative then - z else z.

Definition take_sign (l : list ascii) : bool * list ascii :=
  match l with
  | "-"%char :: l' => (true, l')
  | "+"%char :: l' => (false, l')
  | _ => (false, l)
  end.

(** The exponent part: [e] or [E], an optional sign and at least one
    digit.  [None] when an exponent is started and has no digit. *)
Definition take_exponent (l : list ascii) : option (option Z * list ascii) :=
  match l with
  | c :: l' =>
      if Ascii.eqb c "e" || Ascii.eqb c "E"
      then
        let '(negative, l1) := take_sign l' in
        let '(ds, rest) := span_digits l1 in
        match ds with
        | [] => None
        | _ => Some (Some (signed negative (number_of_digits ds)), rest)
        end
      else Some (None, l)
  | [] => Some (None, [])
  end.

(** A numeric literal as [pd.to_numeric] reads it from text: optional
    white space around an optional sign, digits with an optional fraction
    and an optional exponent; at least one digit in the mantissa.  It is an
    integer when it has neither fraction nor exponent and fits [int64], a
    float otherwise.  The spellings of NaN read as NaN, which is what a
    failure gives under [errors="coerce"]; those of the infinities are not
    modelled. *)
Definition parse_number (s : string) : option number :=
  let '(negative, l1) := take_sign (skip_space (chars s)) in
  let '(ip, l2) := span_digits l1 in
  let '(has_dot, (fp, l3)) :=
    match l2 with
    | "."%char :: l' => (true, span_digits l')
    | _ => (false, ([], l2))
    end in
  match (ip ++ fp)%list with
  | [] => None
  | mantissa =>
      match take_exponent l3 with
      | None => None
      | Some (ex, l4) =>
          match skip_space l4 with
          | [] =>
              let m := signed negative (number_of_digits mantissa) in
              match has_dot, ex with
              | false, None =>
                  if (int64_min <=? m) && (m <=? int64_max)
                  then Some (Integer m)
                  else Some (Floating (inject_Z m))
              | _, _ =>
                  let e := default 0 ex - Z.of_nat (length fp) in
                  Some (Floating (Qred (inject_Z m * Qpower (10 # 1) e)))
              end
          | _ => None
          end
      end
  end.

(** *** Calendar dates *)

Definition is_leap (y : Z) : bool :=
  (y mod 4 =? 0) && (negb (y mod 100 =? 0) || (y mod 400 =? 0)).

Definition days_in_month (y m : Z) : Z :=
  if m =? 2 then (if is_leap y then 29 else 28)
  else if (m =? 4) || (m =? 6) || (m =? 9) || (m =? 11) then 30
  else 31.

(** Days from 1970-01-01 to the civil date [y]-[m]-[d]. *)
Definition days_from_civil (y m d : Z) : Z :=
  let y' := if m <=? 2 then y - 1 else y in
  let era := y' / 400 in
  let yoe := y' - era * 400 in
  let doy := (153 * (if 2 <? m then m - 3 else m + 9) + 2) / 5 + d - 1 in
  let doe := yoe * 365 + yoe / 4 - yoe / 100 + doy in
  era * 146097 + doe - 719468.

Definition ns_per_day : Z := 86400 * 1000000000.

(** Midnight of a valid date within the bounds of [datetime64[ns]]. *)
Definition timestamp (y m d : Z) : option Z :=
  if (1 <=? m) && (m <=? 12) && (1 <=? d) && (d <=? days_in_month y m)
  then
    let ns := days_from_civil y m d * ns_per_day in
    if (int64_min <? ns) && (ns <=? int64_max) then Some ns else None
  else None.

(** The year-month-day layouts [%Y-%m-%d] and [%Y/%m/%d], named by their
    separator. *)
Definition is_ymd_sep (c : ascii) : bool :=
  Ascii.eqb c "-" || Ascii.eqb c "/".

(** [strptime] with the layout of separator [sep], the whole text having
    to match: a year of four digits, a month and a day of one or two. *)
Definition strptime_ymd (sep : ascii) (s : string) : option Z :=
  let '(ys, l1) := span_digits (chars s) in
  match l1 with
  | c1 :: l1' =>
      let '(ms, l2) := span_digits l1' in
      match l2 with
      | c2 :: l2' =>
          let '(ds, l3) := span_digits l2' in
          if Ascii.eqb c1 sep && Ascii.eqb c2 sep
             && (length ys =? 4)%nat
             && (1 <=? length ms)%nat && (length ms <=? 2)%nat
             && (1 <=? length ds)%nat && (length ds <=? 2)%nat
             && bool_decide (l3 = [])
          then timestamp (number_of_digits ys) (number_of_digits ms)
                 (number_of_digits ds)
          else None
      | [] => None
      end
  | [] => None
  end.

(** [guess_datetime_format] on the year-month-day layouts: the text is a
    valid date written with four, two and two digits. *)
Definition guess_ymd (s : string) : option ascii :=
  match chars s with
  | [_; _; _; _; c; _; _; _; _; _] =>
      if is_ymd_sep c && bool_decide (is_Some (strptime_ymd c s))
      then Some c else None
  | _ => None
  end.

(** Text that reads as a missing date: the empty text and the spellings
    of NaT and NaN. *)
Definition is_nat_string (s : string) : bool :=
  bool_decide (s ∈ [""; "NaT"; "nat"; "NAT"; "nan"; "NaN"; "NAN"]).

End Parse.

(** ** The pandas operations used by the program *)

(** What the program leaves to the library and the model does not fix:
    the text of a float and of a timestamp, the timestamp of a float, the
    date layouts other than year-month-day that [pd.to_datetime] infers,
    its element-wise parser for text with no inferable layout, and whether
    a masked assignment of the missing value casts an [int64] array when the
    mask selects no element. *)
Record Library := {
  repr_float : Q -> string;
  str_timestamp : Z -> string;
  timestamp_of_float : Q -> option Z;
  format : Type;
  guess_datetime_format : string -> option format;
  strptime : format -> string -> option Z;
  parse_datetime_string : string -> option Z;
  upcast_unmatched : bool
}.

Section Pandas.
Context (lib : Library).

(** *** [pd.to_datetime(s, errors="coerce")] *)

(** The first element that is neither missing nor text reading as
    missing. *)
Fixpoint first_non_null (l : list pyobj) : option string :=
  match l with
  | PyStr s :: l' =>
      if Parse.is_nat_string s then first_non_null l' else Some s
  | _ :: l' => first_non_null l'
  | [] => None
  end.

(** One layout is inferred from the first non-null element and every
    element is read with it, whatever layouts the other elements have (the
    consistent parsing of pandas 2.0 and later); without an inferable layout
    each element is parsed on its own. *)
Definition element_parser (l : list pyobj) : string -> option Z :=
  match first_non_null l with
  | Some s =>
      match Parse.guess_ymd s with
      | Some sep => Parse.strptime_ymd sep
      | None =>
          match guess_datetime_format lib s with
          | Some f => strptime lib f
          | None => parse_datetime_string lib
          end
      end
  | None => parse_datetime_string lib
  end.

(** [errors="coerce"]: text that the parser does not read becomes NaT. *)
Definition objects_to_datetime (l : list pyobj) : list (option Z) :=
  (fun o =>
     match o with
     | PyStr s =>
         if Parse.is_nat_string s then None else element_parser l s
     | _ => None
     end) <$> l.

Definition to_datetime (s : Series) : Series :=
  match s with
  | Datetime64S _ => s
  | Int64S l =>
      Datetime64S ((fun z => if z =? int64_min then None else Some z) <$> l)
  | Float64S l =>
      Datetime64S ((fun o => q ← o; timestamp_of_float lib q) <$> l)
  | ObjectS l => Datetime64S (objects_to_datetime l)
  end.

(** *** [s.astype(str)]: [str] of every element, the missing ones
    included *)

Definition str_of_obj (o : pyobj) : string :=
  match o with
  | PyNone => "None"
  | PyNaN => "nan"
  | PyNA => "<NA>"
  | PyStr s => s
  end.

Definition astype_str (s : Series) : Series :=
  match s with
  | ObjectS l => ObjectS ((fun o => PyStr (str_of_obj o)) <$> l)
  | Int64S l => ObjectS ((fun z => PyStr (PyStr.str_of_Z z)) <$> l)
  | Float64S l =>
      ObjectS ((fun o => PyStr (from_option (repr_float lib) "nan" o)) <$> l)
  | Datetime64S l =>
      ObjectS ((fun o => PyStr (from_option (str_timestamp lib) "NaT" o))
                 <$> l)
  end.

(** *** The [.str] accessor: only on [object] data; a missing element
    stays as it is *)

Definition str_map (f : string -> string) (s : Series) : result Series :=
  match s with
  | ObjectS l =>
      Ok (ObjectS ((fun o => match o with PyStr x => PyStr (f x) | _ => o end)
                     <$> l))
  | _ => Raise AttributeError
  end.

Definition str_strip : Series -> result Series := str_map PyStr.strip.
Definition str_title : Series -> result Series := str_map PyStr.title.

(** [s == v] for a text [v] *)
Definition eq_scalar (s : Series) (v : string) : list bool :=
  match s with
  | ObjectS l =>
      (fun o => match o with PyStr x => bool_decide (x = v) | _ => false end)
        <$> l
  | Int64S l => (fun _ => false) <$> l
  | Float64S l => (fun _ => false) <$> l
  | Datetime64S l => (fun _ => false) <$> l
  end.

(** *** [pd.to_numeric(s, errors="coerce")] *)

Definition number_of_obj (o : pyobj) : option Parse.number :=
  match o with
  | PyStr s => Parse.parse_number s
  | _ => None
  end.

Definition as_integer (n : option Parse.number) : option Z :=
  match n with
  | Some (Parse.Integer z) => Some z
  | _ => None
  end.

Definition as_float (n : option Parse.number) : option Q :=
  match n with
  | Some (Parse.Integer z) => Some (inject_Z z)
  | Some (Parse.Floating q) => Some q
  | None => None
  end.

(** [int64] when every element reads as an integer, [float64] with NaN
    for the missing and the unreadable elements otherwise. *)
Definition to_numeric (s : Series) : Series :=
  match s with
  | ObjectS l =>
      let ns := number_of_obj <$> l in
      match mapM as_integer ns with
      | Some zs => Int64S zs
      | None => Float64S (as_float <$> ns)
      end
  | Int64S _ => s
  | Float64S _ => s
  | Datetime64S l => Int64S (default int64_min <$> l)
  end.

(** *** Comparison with an integer, [s < k] and [s > k] *)

Definition compare_scalar (cmpz : Z -> Z -> bool) (cmpq : Q -> Q -> bool)
    (s : Series) (k : Z) : result (list bool) :=
  match s with
  | ObjectS l =>
      if forallb obj_isna l then Ok ((fun _ => false) <$> l)
      else Raise TypeError
  | Int64S l => Ok ((fun z => cmpz z k) <$> l)
  | Float64S l =>
      Ok ((fun o => match o with
                    | Some q => cmpq q (inject_Z k)
                    | None => false
                    end) <$> l)
  | Datetime64S _ => Raise TypeError
  end.

Definition lt_scalar := compare_scalar Z.ltb Qlt_bool.
Definition gt_scalar := compare_scalar Z.gtb (fun x y => Qlt_bool y x).

(** [a | b] on masks *)
Definition mask_or (a b : list bool) : list bool := zip_with orb a b.

(** *** [df.loc[mask, label] = pd.NA] *)

(** An [int64] array cannot hold the missing value: it is cast to
    [float64] when the mask selects an element; when it selects none the
    library decides, and nothing happens in a frame without rows. *)
Definition set_na (mask : list bool) (s : Series) : Series :=
  match s with
  | ObjectS l => ObjectS (putmask mask PyNA l)
  | Int64S [] => s
  | Int64S l =>
      if existsb id mask || upcast_unmatched lib
      then Float64S (putmask mask None ((fun z => Some (inject_Z z)) <$> l))
      else s
  | Float64S l => Float64S (putmask mask None l)
  | Datetime64S l => Datetime64S (putmask mask None l)
  end.

Definition loc_set_na (mask : list bool) (label : string) (df : DataFrame)
  : DataFrame :=
  map_column label (set_na mask) df.

(** *** [df.drop_duplicates()] *)

(** One cell of a row, whatever the dtype of its column. *)
Inductive cell :=
| Missing
| Text (s : string)
| Int (z : Z)
| Float (q : Q)
| Time (ns : Z).

Definition cell_of_obj (o : pyobj) : cell :=
  match o with PyStr s => Text s | _ => Missing end.

Definition cells (s : Series) : list cell :=
  match s with
  | ObjectS l => cell_of_obj <$> l
  | Int64S l => Int <$> l
  | Float64S l => from_option Float Missing <$> l
  | Datetime64S l => from_option Time Missing <$> l
  end.

(** Two cells are the same when both are missing or both hold the same
    value. *)
Definition cell_eqb (a b : cell) : bool :=
  match a, b with
  | Missing, Missing => true
  | Text x, Text y => bool_decide (x = y)
  | Int x, Int y => x =? y
  | Float x, Float y => Qeq_bool x y
  | Time x, Time y => x =? y
  | _, _ => false
  end.

Definition row (df : DataFrame) (i : nat) : list (option cell) :=
  (fun c : string * Series => cells c.2 !! i) <$> df.

Definition rows (df : DataFrame) : list (list (option cell)) :=
  row df <$> seq 0 (nrows df).

Definition opt_cell_eqb (a b : option cell) : bool :=
  match a, b with
  | Some x, Some y => cell_eqb x y
  | None, None => true
  | _, _ => false
  end.

Fixpoint row_eqb (r1 r2 : list (option cell)) : bool :=
  match r1, r2 with
  | [], [] => true
  | a :: r1', b :: r2' => opt_cell_eqb a b && row_eqb r1' r2'
  | _, _ => false
  end.

(** [keep_first seen rs]: for each row of [rs] in order, whether it is the
    first of its kind, [seen] holding the rows kept so far. *)
Fixpoint keep_first (seen rs : list (list (option cell))) : list bool :=
  match rs with
  | [] => []
  | r :: rs' =>
      if existsb (row_eqb r) seen
      then false :: keep_first seen rs'
      else true :: keep_first (r :: seen) rs'
  end.

(** [~df.duplicated()] *)
Definition not_duplicated (df : DataFrame) : list bool :=
  keep_first [] (rows df).

Definition drop_duplicates (df : DataFrame) : DataFrame :=
  let keep := not_duplicated df in
  (fun c : string * Series => (c.1, select_series keep c.2)) <$> df.

End Pandas.

(** ** The program *)

Definition RAW_FILE : string := "raw_data.csv".
Definition CLEAN_FILE : string := "cleaned_data.csv".
Definition DOC_FILE : string := "data_dictionary.md".

Definition text_column (l : list (option string)) : Series :=
  ObjectS (from_option PyStr PyNone <$> l).

(** The example dataset built when there is no [raw_data.csv]. *)
Definition example_dataset : DataFrame :=
  [ ("Crash Date",
     text_column [Some "2026-05-01"; Some "2026/05/02"; None; Some "2026-05-04"]);
    ("City",
     text_column [Some "Cincinnati"; Some "CINCINNATI "; Some "Covington"; Some ""]);
    ("Injuries",
     text_column [Some "2"; Some "0"; Some "unknown"; Some "1"]);
    ("Latitude",
     Float64S [Some (391031 # 10000); Some (391032 # 10000); None;
               Some (390500 # 10000)]);
    ("Longitude",
     Float64S [Some (-845120 # 10000); Some (-845121 # 10000);
               Some (-845200 # 10000); None]) ].

(** [load_data()]: [raw] is what [pd.read_csv(RAW_FILE)] gives when the file
    exists. *)
Definition load_data (raw : option DataFrame) : DataFrame :=
  match raw with
  | Some df => df
  | None => example_dataset
  end.

Section Program.
Context (lib : Library).

(** *** [clean_data], statement by statement, on the value of [df] *)

(** "Standardize column names" *)
Definition standardize_columns (df : DataFrame) : DataFrame :=
  set_columns (normalize_column <$> columns df) df.

(** "Parse dates safely" *)
Definition parse_dates (df : DataFrame) : result DataFrame :=
  if has_column "crash_date" df then
    s ← getitem ValueError "crash_date" df;
    Ok (setitem "crash_date" (to_datetime lib s) df)
  else Ok df.

(** "Trim + standardize text" *)
Definition standardize_city (df : DataFrame) : result DataFrame :=
  if has_column "city" df then
    s ← getitem AttributeError "city" df;
    s ← str_strip (astype_str lib s);
    let df := setitem "city" s df in
    s ← getitem AttributeError "city" df;
    let df := loc_set_na lib (eq_scalar s "") "city" df in
    s ← getitem AttributeError "city" df;
    s ← str_title s;
    Ok (setitem "city" s df)
  else Ok df.

(** "Convert injuries to numeric (invalid becomes NaN)" *)
Definition convert_injuries (df : DataFrame) : result DataFrame :=
  if has_column "injuries" df then
    s ← getitem TypeError "injuries" df;
    Ok (setitem "injuries" (to_numeric s) df)
  else Ok df.

(** "Basic validity checks for lat/lon if present", for one of the two
    columns: [df.loc[(df[label] < lo) | (df[label] > hi), label] = pd.NA] *)
Definition check_bounds (label : string) (lo hi : Z) (df : DataFrame)
  : result DataFrame :=
  if has_column label df then
    s ← getitem ValueError label df;
    below ← lt_scalar s lo;
    s ← getitem ValueError label df;
    above ← gt_scalar s hi;
    Ok (loc_set_na lib (mask_or below above) label df)
  else Ok df.

(** The value [clean_data] returns for an argument of value [df]. *)
Definition cleaned (df : DataFrame) : result DataFrame :=
  let df := standardize_columns df in
  df ← parse_dates df;
  df ← standardize_city df;
  df ← convert_injuries df;
  df ← check_bounds "latitude" (-90) 90 df;
  df ← check_bounds "longitude" (-180) 180 df;
  Ok (drop_duplicates df).

(** The frame on which [drop_duplicates] is called. *)
Definition normalized (df : DataFrame) : result DataFrame :=
  let df := standardize_columns df in
  df ← parse_dates df;
  df ← standardize_city df;
  df ← convert_injuries df;
  df ← check_bounds "latitude" (-90) 90 df;
  check_bounds "longitude" (-180) 180 df.

(** *** [write_data_dictionary] *)

Definition preamble : list string :=
  [ "# Data Dictionary / Methodology" ++ "
";
    "**Source:** Public sample or local `raw_data.csv` (if provided)" ++ "
";
    "**Cleaning steps:** standardized column names, parsed dates, trimmed text, coerced numeric fields, basic lat/lon validation, removed duplicates." ++ "
";
    "
## Columns
" ].

(** [int(df[col].isna().sum())] *)
Definition missing_count (s : Series) : nat := count_true (isna s).

(** [f"- **{col}** ({dtype}) â€” missing: {missing}\n"] *)
Definition entry (col : string) (s : Series) : string :=
  "- **" ++ col ++ "** (" ++ dtype_str s ++ ") â€” missing: "
    ++ PyStr.str_of_N (N.of_nat (missing_count s)) ++ "
".

(** The loop over [df.columns], appending to [lines]. *)
Fixpoint append_entries (df : DataFrame) (cols : list string)
    (lines : list string) : result (list string) :=
  match cols with
  | [] => Ok lines
  | col :: cols' =>
      s ← getitem AttributeError col df;
      append_entries df cols' (lines ++ [entry col s])%list
  end.

(** The lines written to [DOC_FILE]. *)
Definition write_data_dictionary (df : DataFrame) : result (list string) :=
  append_entries df (columns df) preamble.

End Program.

(** ** DataFrame objects in the heap *)

Definition loc := positive.

(** A computation on the heap, which returns or raises and leaves a heap
    behind in both cases. *)
Definition M (A : Type) : Type :=
  gmap loc DataFrame -> result A * gmap loc DataFrame.

#[global] Instance M_ret : MRet M := fun A a σ => (Ok a, σ).
#[global] Instance M_bind : MBind M := fun A B f m σ =>
  match m σ with
  | (Ok a, σ') => f a σ'
  | (Raise e, σ') => (Raise e, σ')
  end.

Module Obj.

Definition lift {A} (r : result A) : M A := fun σ => (r, σ).

(** The value of the object at [l]; a dangling reference cannot be built
    by the program. *)
Definition read (l : loc) : M DataFrame := fun σ =>
  match σ !! l with
  | Some df => (Ok df, σ)
  | None => (Raise SystemError, σ)
  end.

(** A new object. *)
Definition alloc (df : DataFrame) : M loc := fun σ =>
  let l := fresh (dom σ) in (Ok l, <[l := df]> σ).

(** An update in place. *)
Definition modify (l : loc) (f : DataFrame -> DataFrame) : M unit :=
  fun σ =>
    match σ !! l with
    | Some df => (Ok tt, <[l := f df]> σ)
    | None => (Raise SystemError, σ)
    end.

(** [df.copy()] *)
Definition copy (df : loc) : M loc := d ← read df; alloc d.

(** [df.columns] and [df.columns = names] *)
Definition get_columns (df : loc) : M (list string) :=
  d ← read df; mret (columns d).
Definition set_columns (df : loc) (names : list string) : M unit :=
  modify df (set_columns names).

(** [label in df.columns] *)
Definition contains (df : loc) (label : string) : M bool :=
  d ← read df; mret (has_column label d).

(** [df[label]] and [df[label] = s] *)
Definition getitem (e : exn) (df : loc) (label : string) : M Series :=
  d ← read df; lift (getitem e label d).
Definition setitem (df : loc) (label : string) (s : Series) : M unit :=
  modify df (setitem label s).

(** [df.loc[mask, label] = pd.NA] *)
Definition loc_set_na (lib : Library) (df : loc) (mask : list bool)
    (label : string) : M unit :=
  modify df (loc_set_na lib mask label).

(** [df.drop_duplicates()] *)
Definition drop_duplicates (df : loc) : M loc :=
  d ← read df; alloc (drop_duplicates d).

Definition when (b : bool) (body : M unit) : M unit :=
  if b then body else mret tt.

End Obj.

Section ProgramOnHeap.
Context (lib : Library).

(** [clean_data(df)]: the name [df] is rebound to a copy, the copy is
    updated in place, and the object built by [drop_duplicates] is
    returned. *)
Definition clean_data (df : loc) : M loc :=
  df ← Obj.copy df;
  names ← Obj.get_columns df;
  _ ← Obj.set_columns df (normalize_column <$> names);

  b ← Obj.contains df "crash_date";
  _ ← Obj.when b (
    s ← Obj.getitem ValueError df "crash_date";
    Obj.setitem df "crash_date" (to_datetime lib s));

  b ← Obj.contains df "city";
  _ ← Obj.when b (
    s ← Obj.getitem AttributeError df "city";
    s ← Obj.lift (str_strip (astype_str lib s));
    _ ← Obj.setitem df "city" s;
    s ← Obj.getitem AttributeError df "city";
    _ ← Obj.loc_set_na lib df (eq_scalar s "") "city";
    s ← Obj.getitem AttributeError df "city";
    s ← Obj.lift (str_title s);
    Obj.setitem df "city" s);

  b ← Obj.contains df "injuries";
  _ ← Obj.when b (
    s ← Obj.getitem TypeError df "injuries";
    Obj.setitem df "injuries" (to_numeric s));

  b ← Obj.contains df "latitude";
  _ ← Obj.when b (
    s ← Obj.getitem ValueError df "latitude";
    below ← Obj.lift (lt_scalar s (-90));
    s ← Obj.getitem ValueError df "latitude";
    above ← Obj.lift (gt_scalar s 90);
    Obj.loc_set_na lib df (mask_or below above) "latitude");

  b ← Obj.contains df "longitude";
  _ ← Obj.when b (
    s ← Obj.getitem ValueError df "longitude";
    below ← Obj.lift (lt_scalar s (-180));
    s ← Obj.getitem ValueError df "longitude";
    above ← Obj.lift (gt_scalar s 180);
    Obj.loc_set_na lib df (mask_or below above) "longitude");

  df ← Obj.drop_duplicates df;
  mret df.

End ProgramOnHeap.

(** ** The script: files and standard output *)

(** The objects, the files of the working directory with their text, and
    the lines printed. *)
Record World := {
  heap : gmap loc DataFrame;
  files : gmap string string;
  console : list string
}.

(** A computation of the script, which returns or raises and leaves a world
    behind in both cases. *)
Definition IO (A : Type) : Type := World -> result A * World.

#[global] Instance IO_ret : MRet IO := fun A a w => (Ok a, w).
#[global] Instance IO_bind : MBind IO := fun A B f m w =>
  match m w with
  | (Ok a, w') => f a w'
  | (Raise e, w') => (Raise e, w')
  end.

Module Sys.

Definition lift {A} (r : result A) : IO A := fun w => (r, w).

(** A computation on the objects. *)
Definition on_heap {A} (m : M A) : IO A := fun w =>
  let (r, σ) := m (heap w) in
  (r, {| heap := σ; files := files w; console := console w |}).

(** [os.path.exists(name)] *)
Definition path_exists (name : string) : IO bool := fun w =>
  (Ok (bool_decide (is_Some (files w !! name))), w).

(** The text of a file; the program reads a file only after
    [os.path.exists]. *)
Definition read_text (name : string) : IO string := fun w =>
  match files w !! name with
  | Some text => (Ok text, w)
  | None => (Raise SystemError, w)
  end.

(** [open(name, "w")] and what is written before the file is closed. *)
Definition write_text (name text : string) : IO unit := fun w =>
  (Ok tt, {| heap := heap w; files := <[name := text]> (files w);
             console := console w |}).

(** [print(line)] *)
Definition print (line : string) : IO unit := fun w =>
  (Ok tt, {| heap := heap w; files := files w;
             console := (console w ++ [line])%list |}).

End Sys.

Module Script.
Section Script.
Context (lib : Library).

(** [pd.read_csv] on the text of a file and [df.to_csv(index=False)]; the
    text of a CSV file is left open. *)
Context (read_csv : string -> result DataFrame) (to_csv : DataFrame -> string).

(** [load_data()] *)
Definition load_data : IO loc :=
  b ← Sys.path_exists RAW_FILE;
  if (b : bool) then
    text ← Sys.read_text RAW_FILE;
    df ← Sys.lift (read_csv text);
    Sys.on_heap (Obj.alloc (load_data (Some df)))
  else
    Sys.on_heap (Obj.alloc (load_data None)).

(** [write_data_dictionary(df)]: the file is opened once the lines are
    built. *)
Definition write_data_dictionary (df : loc) : IO unit :=
  d ← Sys.on_heap (Obj.read df);
  lines ← Sys.lift (write_data_dictionary d);
  Sys.write_text DOC_FILE (String.concat "" lines).

(** [len(df)] *)
Definition len (df : loc) : IO nat :=
  d ← Sys.on_heap (Obj.read df); mret (nrows d).

(** [main()] *)
Definition main : IO unit :=
  df_raw ← load_data;
  df_clean ← Sys.on_heap (clean_data lib df_raw);

  d ← Sys.on_heap (Obj.read df_clean);
  _ ← Sys.write_text CLEAN_FILE (to_csv d);
  _ ← write_data_dictionary df_clean;

  _ ← Sys.print "Done.";
  n ← len df_raw;
  _ ← Sys.print ("Rows (raw):   " ++ PyStr.str_of_N (N.of_nat n));
  n ← len df_clean;
  _ ← Sys.print ("Rows (clean): " ++ PyStr.str_of_N (N.of_nat n));
  Sys.print ("Saved: " ++ CLEAN_FILE ++ " and " ++ DOC_FILE).

End Script.
End Script.

(** * Notions used in the statements *)

(** ** Frames to run the model on *)

(** A library instance to run the model with. *)
Definition plain_library : Library := {|
  repr_float := fun q => PyStr.str_of_Z (Qnum q) ++ "/" ++ PyStr.str_of_Z (Zpos (Qden q));
  str_timestamp := PyStr.str_of_Z;
  timestamp_of_float := fun q => Some (Qnum q / Zpos (Qden q));
  format := Empty_set;
  guess_datetime_format := fun _ => None;
  strptime := fun f _ => match f with end;
  parse_datetime_string := fun _ => None;
  upcast_unmatched := true
|}.

(** A frame with a column the program does not know, two rows that become
    the same once the city is trimmed and title-cased, and a latitude out of
    range. *)
Definition roads : DataFrame :=
  [ ("City", text_column [Some "Dayton"; Some " dayton "; Some "Oxford"]);
    ("Road Name", text_column [Some "I-75"; Some "I-75"; Some "US 27"]);
    ("Latitude", Float64S [Some (3976 # 100); Some (3976 # 100);
                           Some (1395 # 10)]) ].

Definition roads_cleaned : DataFrame :=
  [ ("city", ObjectS [PyStr "Dayton"; PyStr "Oxford"]);
    ("road_name", ObjectS [PyStr "I-75"; PyStr "US 27"]);
    ("latitude", Float64S [Some (3976 # 100); None]) ].

Definition example_cleaned : DataFrame :=
  [ ("crash_date",
     Datetime64S [Some 1777593600000000000; None; None;
                  Some 1777852800000000000]);
    ("city",
     ObjectS [PyStr "Cincinnati"; PyStr "Cincinnati"; PyStr "Covington"; PyNA]);
    ("injuries", Float64S [Some (2 # 1); Some (0 # 1); None; Some (1 # 1)]);
    ("latitude",
     Float64S [Some (391031 # 10000); Some (391032 # 10000); None;
               Some (390500 # 10000)]);
    ("longitude",
     Float64S [Some (-845120 # 10000); Some (-845121 # 10000);
               Some (-845200 # 10000); None]) ].

(** ** Text *)

(** A list of characters that does not start with white space. *)
Definition head_ok (l : list ascii) : bool :=
  match l with
  | [] => true
  | c :: _ => negb (PyStr.isspace c)
  end.

Definition trimmed (l : list ascii) : Prop :=
  head_ok l = true /\ head_ok (rev l) = true.

Definition underscore (c : ascii) : ascii :=
  if Ascii.eqb c " " then "_"%char else c.

(** Title case: a cased character is upper case exactly when the character
    before it is not cased. *)
Fixpoint title_cased_from (previous_is_cased : bool) (l : list ascii) : bool :=
  match l with
  | [] => true
  | c :: l' =>
      if PyStr.iscased c
      then (if previous_is_cased then PyStr.islower c else PyStr.isupper c)
           && title_cased_from true l'
      else title_cased_from false l'
  end.

(** ** Frames and what a step leaves alone *)

Definition five : list string :=
  ["crash_date"; "city"; "injuries"; "latitude"; "longitude"].

(** [df'] has the labels of [df] in the same order and columns of the same
    lengths, and differs from [df] at most in the columns whose label is
    [touched]. *)
Definition step_rel (touched : string -> Prop) (df df' : DataFrame) : Prop :=
  Forall2 (fun c c' : string * Series =>
             c'.1 = c.1 /\ series_len c'.2 = series_len c.2
             /\ (~ touched c.1 -> c'.2 = c.2)) df df'.

(** Every column has as many elements as the frame has rows. *)
Definition rectangular (df : DataFrame) : Prop :=
  Forall (fun c : string * Series => series_len c.2 = nrows df) df.

(** ** Cells *)

Definition is_missing (c : cell) : bool :=
  match c with Missing => true | _ => false end.

(** A cell of a coordinate column that is missing or a number within
    [[lo, hi]]. *)
Definition cell_in_range (lo hi : Z) (c : cell) : Prop :=
  match c with
  | Missing => True
  | Int z => lo <= z <= hi
  | Float q => (inject_Z lo <= q <= inject_Z hi)%Q
  | _ => False
  end.

Definition in_range (lo hi : Z) (s : Series) : Prop :=
  Forall (cell_in_range lo hi) (cells s).

(** The number a cell holds, if it holds one. *)
Definition number (c : cell) : option Q :=
  match c with
  | Int z => Some (inject_Z z)
  | Float q => Some q
  | _ => None
  end.

(** The rule of the range check on the number of a cell: strictly below
    [lo] or strictly above [hi] gives missing, missing stays missing. *)
Definition clip (lo hi : Z) (v : option Q) : option Q :=
  match v with
  | Some q =>
      if Qlt_bool q (inject_Z lo) || Qlt_bool (inject_Z hi) q then None
      else Some q
  | None => None
  end.

(** The series left by the range check, from the one it finds. *)
Definition checked (lib : Library) (lo hi : Z) (s s' : Series) : Prop :=
  exists below above,
    lt_scalar s lo = Ok below /\ gt_scalar s hi = Ok above
    /\ s' = set_na lib (mask_or below above) s.

(** Text that is not empty, has no white space at either end and is in
    title case. *)
Definition clean_text (s : string) : Prop :=
  s <> "" /\ trimmed (PyStr.chars s)
  /\ title_cased_from false (PyStr.chars s) = true.

Definition clean_city (c : cell) : Prop :=
  match c with
  | Missing => True
  | Text s => clean_text s
  | _ => False
  end.

(** The city column as the block "Trim + standardize text" leaves it. *)
Definition city_of (xs : list string) : Series :=
  ObjectS ((fun x => if bool_decide (PyStr.strip x = "") then PyNA
                     else PyStr (PyStr.title (PyStr.strip x))) <$> xs).

(** A column that can be compared with a number: numeric, or holding
    missing values only. *)
Definition comparable (s : Series) : bool :=
  match s with
  | ObjectS l => forallb obj_isna l
  | Int64S _ => true
  | Float64S _ => true
  | Datetime64S _ => false
  end.

(** ** Rows *)

(** Whether some row of [rs] is the same as [r]. *)
Definition occurs (r : list (option cell)) (rs : list (list (option cell)))
  : bool :=
  existsb (row_eqb r) rs.

(** The rows of a frame, column by column. *)
Fixpoint rowsN (n : nat) (cols : list (list cell)) : list (list (option cell)) :=
  match n with
  | O => []
  | S n' => (head <$> cols) :: rowsN n' (tail <$> cols)
  end.

(** ** Outcomes on the heap *)

(** [Q] holds of the outcome of [m] run from [σ]. *)
Definition wp {A} (m : M A) (Q : result A -> gmap loc DataFrame -> Prop)
    (σ : gmap loc DataFrame) : Prop :=
  Q (m σ).1 (m σ).2.

(** Every object of [σ0] is in [σ] with the value it has in [σ0]. *)
Definition extends (σ0 σ : gmap loc DataFrame) : Prop :=
  forall l d, σ0 !! l = Some d -> σ !! l = Some d.

(** [σ] extends [σ0] by an object at [l1], of value [d]. *)
Definition owns (σ0 : gmap loc DataFrame) (l1 : loc) (d : DataFrame)
    (σ : gmap loc DataFrame) : Prop :=
  extends σ0 σ /\ σ0 !! l1 = None /\ σ !! l1 = Some d.

(** The outcome of a block of [clean_data] that updates the object at [l1],
    against the step [step] on values. *)
Definition block_post (σ0 : gmap loc DataFrame) (l1 : loc)
    (step : result DataFrame)
    (Q : result unit -> gmap loc DataFrame -> Prop) : Prop :=
  match step with
  | Ok d' => forall σ', owns σ0 l1 d' σ' -> Q (Ok tt) σ'
  | Raise e => forall σ', extends σ0 σ' -> Q (Raise e) σ'
  end.

(** What [clean_data] does to the heap [σ0] when called on the object at
    [l], of value [df]. *)
Definition clean_data_post (lib : Library) (σ0 : gmap loc DataFrame)
    (df : DataFrame) (r : result loc)
    (σ' : gmap loc DataFrame) : Prop :=
  extends σ0 σ'
  /\ match r with
     | Ok l' =>
         σ0 !! l' = None
         /\ exists df', cleaned lib df = Ok df' /\ σ' !! l' = Some df'
     | Raise e => cleaned lib df = Raise e
     end.

(** ** Labels and dtypes *)

(** A label in normal form: no white space at either end, no upper-case
    letter and no space. *)
Definition normal_name (n : string) : Prop :=
  trimmed (PyStr.chars n)
  /\ Forall (fun c => PyStr.isupper c = false /\ c <> " "%char) (PyStr.chars n).

Definition is_datetime (s : Series) : bool :=
  match s with Datetime64S _ => true | _ => false end.

Definition is_numeric (s : Series) : bool :=
  match s with Int64S _ | Float64S _ => true | _ => false end.

(** No two rows of [rs] are the same. *)
Definition distinct_rows (rs : list (list (option cell))) : Prop :=
  forall i j r1 r2, (i < j)%nat -> rs !! i = Some r1 -> rs !! j = Some r2 ->
    row_eqb r1 r2 = false.

(** A label that two columns carry. *)
Definition carried_twice (label : string) (names : list string) : Prop :=
  exists i j, (i < j)%nat /\ names !! i = Some label /\ names !! j = Some label.

(** ** The script *)

(** The frame [load_data] gives in a directory with the files [fs]. *)
Definition loaded (read_csv : string -> result DataFrame)
    (fs : gmap string string) : result DataFrame :=
  match fs !! RAW_FILE with
  | Some text => read_csv text
  | None => Ok example_dataset
  end.

(** The four lines [main] prints at the end. *)
Definition report (raw clean : nat) : list string :=
  [ "Done.";
    "Rows (raw):   " ++ PyStr.str_of_N (N.of_nat raw);
    "Rows (clean): " ++ PyStr.str_of_N (N.of_nat clean);
    "Saved: cleaned_data.csv and data_dictionary.md" ].

(** What [main] leaves in the files and on standard output, from the files
    [fs] and the lines [out] printed before. *)
Definition main_outcome (lib : Library)
    (read_csv : string -> result DataFrame) (to_csv : DataFrame -> string)
    (fs : gmap string string) (out : list string)
  : result unit * gmap string string * list string :=
  match loaded read_csv fs with
  | Raise e => (Raise e, fs, out)
  | Ok raw =>
      match cleaned lib raw with
      | Raise e => (Raise e, fs, out)
      | Ok clean =>
          let fs1 := <[CLEAN_FILE := to_csv clean]> fs in
          match write_data_dictionary clean with
          | Raise e => (Raise e, fs1, out)
          | Ok lines =>
              (Ok tt, <[DOC_FILE := String.concat "" lines]> fs1,
               (out ++ report (nrows raw) (nrows clean))%list)
          end
      end
  end.

(** A coordinate column the check against [lo] and [hi] has nothing to do
    on: missing values only, or numbers in range, integers staying integers
    only where the library leaves them so. *)
Definition settled (lib : Library) (lo hi : Z) (s : Series) : Prop :=
  match s with
  | ObjectS l => forallb obj_isna l = true
  | Int64S l =>
      l = [] \/ (upcast_unmatched lib = false /\ Forall (fun z => lo <= z <= hi) l)
  | Float64S l =>
      Forall (fun o => match o with
                       | Some q => (inject_Z lo <= q <= inject_Z hi)%Q
                       | None => True
                       end) l
  | Datetime64S _ => False
  end.

(** ** Frames and directories to run the script on *)

(** Two rows that differ. *)
Definition counted : DataFrame :=
  [ ("Road Name", text_column [Some "I-75"; Some "US 27"]);
    ("Lanes", Int64S [4; 2]) ].

(** Two labels that normalise to the same known label, and to the same
    unknown label. *)
Definition two_cities : DataFrame :=
  [ ("City", text_column [Some "Dayton"]);
    (" city", text_column [Some "Oxford"]) ].

Definition two_roads : DataFrame :=
  [ ("Road", text_column [Some "I-75"]);
    (" road", text_column [Some "US 27"]) ].

(** A latitude written as text. *)
Definition north : DataFrame :=
  [ ("Latitude", text_column [Some "39.1"; Some "north"]) ].

(** An empty directory, and one that holds raw_data.csv and notes.txt. *)
Definition empty_directory : World :=
  {| heap := ∅; files := ∅; console := [] |}.

Definition raw_directory : World :=
  {| heap := ∅;
     files := {[ RAW_FILE := "Road, road"; "notes.txt" := "to do" ]};
     console := ["$ python data_sample.py"] |}.

(** * Properties *)

(** ** Text *)

Module PyStrFacts.
Import PyStr.

Lemma chars_text l : chars (text l) = l.
Proof. apply list_ascii_of_string_of_list_ascii. Qed.

Lemma text_chars s : text (chars s) = s.
Proof. apply string_of_list_ascii_of_string. Qed.

Lemma lstrip_head_ok l : head_ok (lstrip_chars l) = true.
Proof.
  induction l as [|c l IH]; simpl; [done|].
  destruct (isspace c) eqn:E; [done|]. simpl. by rewrite E.
Qed.

Lemma lstrip_fixed l : head_ok l = true -> lstrip_chars l = l.
Proof.
  destruct l as [|c l]; simpl; [done|].
  by destruct (isspace c).
Qed.

Lemma lstrip_suffix l : exists pre, l = (pre ++ lstrip_chars l)%list.
Proof.
  induction l as [|c l [pre IH]]; simpl.
  - by exists [].
  - destruct (isspace c).
    + exists (c :: pre). simpl. by rewrite <- IH.
    + by exists [].
Qed.

Lemma rstrip_fixed l : head_ok (rev l) = true -> rstrip_chars l = l.
Proof.
  intros H. unfold rstrip_chars. rewrite lstrip_fixed by done.
  apply rev_involutive.
Qed.

Lemma rstrip_head_ok l : head_ok l = true -> head_ok (rstrip_chars l) = true.
Proof.
  intros H. unfold rstrip_chars.
  destruct (lstrip_suffix (rev l)) as [pre E].
  assert (El : l = (rev (lstrip_chars (rev l)) ++ rev pre)%list).
  { rewrite <- rev_app_distr, <- E. by rewrite rev_involutive. }
  destruct (rev (lstrip_chars (rev l))) as [|c r]; [done|].
  rewrite El in H. exact H.
Qed.

Lemma strip_chars_trimmed l : trimmed (rstrip_chars (lstrip_chars l)).
Proof.
  split.
  - apply rstrip_head_ok, lstrip_head_ok.
  - unfold rstrip_chars. rewrite rev_involutive. apply lstrip_head_ok.
Qed.

Lemma strip_chars_fixed l :
  trimmed l -> rstrip_chars (lstrip_chars l) = l.
Proof.
  intros [H1 H2]. rewrite (lstrip_fixed l) by done. by apply rstrip_fixed.
Qed.

Lemma head_ok_map (g : ascii -> ascii) l :
  (forall c, isspace c = false -> isspace (g c) = false) ->
  head_ok l = true -> head_ok (map g l) = true.
Proof.
  intros Hg. destruct l as [|c l]; simpl; [done|].
  intros H. apply negb_true_iff in H. by rewrite (Hg c H).
Qed.

Lemma trimmed_map (g : ascii -> ascii) l :
  (forall c, isspace c = false -> isspace (g c) = false) ->
  trimmed l -> trimmed (map g l).
Proof.
  intros Hg [H1 H2]. split.
  - by apply head_ok_map.
  - rewrite <- map_rev. by apply head_ok_map.
Qed.

(** Facts on single characters, by enumeration of the 256 of them. *)
Ltac each_char c :=
  destruct c as [[] [] [] [] [] [] [] []]; vm_compute; try reflexivity;
  try discriminate; intros; try discriminate; try reflexivity; auto.

Lemma normal_char_space c :
  isspace c = false -> isspace (underscore (tolower c)) = false.
Proof. each_char c. Qed.

Lemma normal_char_idem c :
  underscore (tolower (underscore (tolower c))) = underscore (tolower c).
Proof. each_char c. Qed.

End PyStrFacts.

(** C9. Column-name normalisation is a function of the name alone and is
    idempotent: normalising a normalised name gives the same name. *)
Theorem normalize_column_idempotent (c : string) :
  normalize_column (normalize_column c) = normalize_column c.
Proof.
  unfold normalize_column, PyStr.replace_char, PyStr.lower, PyStr.strip.
  rewrite !PyStrFacts.chars_text. f_equal.
  rewrite !map_map.
  set (g := fun x : ascii => if Ascii.eqb (PyStr.tolower x) " " then "_"%char
                             else PyStr.tolower x).
  set (l := PyStr.rstrip_chars (PyStr.lstrip_chars (PyStr.chars c))).
  assert (Ht : trimmed (map g l)).
  { apply PyStrFacts.trimmed_map.
    - intros x. apply PyStrFacts.normal_char_space.
    - apply PyStrFacts.strip_chars_trimmed. }
  rewrite (PyStrFacts.strip_chars_fixed _ Ht), map_map.
  apply map_ext. intros x. apply PyStrFacts.normal_char_idem.
Qed.

(** ** Frames: what a step leaves alone *)

Ltac inv_ok :=
  repeat match goal with
    | H : Ok _ = Ok _ |- _ => injection H as H; try subst
    | H : Raise _ = Ok _ |- _ => discriminate H
    | H : mbind _ ?r = Ok _ |- _ =>
        let E := fresh "E" in destruct r eqn:E; cbn in H; [|discriminate H]
    | H : (if ?b then _ else _) = Ok _ |- _ =>
        let E := fresh "E" in destruct b eqn:E
    end.

Section Frames.
Context (lib : Library).

Lemma step_rel_refl P df : step_rel P df df.
Proof. apply Forall_Forall2_diag, Forall_forall. by intros. Qed.

Lemma step_rel_weaken (P Q : string -> Prop) df df' :
  (forall x, P x -> Q x) -> step_rel P df df' -> step_rel Q df df'.
Proof.
  intros HPQ H. eapply Forall2_impl; [exact H|]. intros c c' (H1 & H2 & H3).
  repeat split; [done..|]. intros HQ. apply H3. naive_solver.
Qed.

Lemma step_rel_trans (P : string -> Prop) df1 df2 df3 :
  step_rel P df1 df2 -> step_rel P df2 df3 -> step_rel P df1 df3.
Proof.
  intros H12 H23. eapply Forall2_trans; [|exact H12|exact H23].
  intros c1 c2 c3 (A1 & A2 & A3) (B1 & B2 & B3). simpl in *.
  repeat split; [congruence..|].
  intros HP. rewrite B3, A3; [done..|]. by rewrite A1.
Qed.

Lemma step_rel_columns P df df' : step_rel P df df' -> columns df' = columns df.
Proof.
  unfold columns. induction 1 as [|c c' l l' (H1 & _) _ IH]; [done|].
  rewrite !fmap_cons. by f_equal.
Qed.

Lemma step_rel_rectangular P df df' :
  step_rel P df df' -> rectangular df -> rectangular df'.
Proof.
  intros H R. unfold rectangular in *.
  assert (En : nrows df' = nrows df).
  { destruct H as [|[] [] ? ? (? & ? & ?)]; [done|]. simpl in *. done. }
  rewrite En. clear En. revert R. generalize (nrows df). intros n R.
  induction H as [|c c' df1 df1' (H1 & H2 & _) _ IH].
  - constructor.
  - inversion R; subst. constructor; [congruence|]. by apply IH.
Qed.

Lemma getitem_elem e label df s :
  getitem e label df = Ok s -> (label, s) ∈ df.
Proof.
  unfold getitem. intros H.
  destruct (filter _ df) as [|[x y] [|? ?]] eqn:E; try discriminate.
  inv_ok. assert (Hin : (x, s) ∈ filter (fun c => c.1 = label) df).
  { rewrite E. apply list_elem_of_singleton. done. }
  apply list_elem_of_filter in Hin as [Hx Hin]. simpl in Hx. by subst.
Qed.

Lemma getitem_unique e label df s s' :
  getitem e label df = Ok s -> (label, s') ∈ df -> s' = s.
Proof.
  unfold getitem. intros H Hin.
  assert (Hf : (label, s') ∈ filter (fun c => c.1 = label) df).
  { apply list_elem_of_filter. done. }
  destruct (filter _ df) as [|[x y] [|? ?]]; try discriminate.
  inv_ok. apply list_elem_of_singleton in Hf. congruence.
Qed.

Lemma map_column_rel e label g df s :
  getitem e label df = Ok s ->
  series_len (g s) = series_len s ->
  step_rel (fun x => x = label) df (map_column label g df).
Proof.
  intros Hget Hlen. unfold step_rel, map_column.
  apply Forall2_fmap_r, Forall_Forall2_diag, Forall_forall.
  intros [x y] Hin. simpl. case_decide; simpl; [|done].
  subst. rewrite (getitem_unique _ _ _ _ _ Hget Hin).
  repeat split; [done|]. intros Hne. done.
Qed.

Lemma map_column_elem label g df x y :
  (x, y) ∈ map_column label g df ->
  exists y0, (x, y0) ∈ df /\ y = if decide (x = label) then g y0 else y0.
Proof.
  unfold map_column. intros Hin.
  apply list_elem_of_fmap in Hin as ([x0 y0] & E & Hin). simpl in E.
  case_decide; simpl in *; inversion E; subst; exists y0; split; try done.
  - by rewrite decide_True.
  - by rewrite decide_False.
Qed.

Lemma step_rel_elem P df df' x y' :
  step_rel P df df' -> (x, y') ∈ df' ->
  exists y, (x, y) ∈ df /\ (~ P x -> y' = y).
Proof.
  intros H Hin. apply list_elem_of_lookup in Hin as [i Hi].
  destruct (Forall2_lookup_r _ _ _ _ _ H Hi) as ([x0 y0] & Hi0 & H1 & _ & H3).
  simpl in *. subst. exists y0. split; [|done].
  apply list_elem_of_lookup. eauto.
Qed.

End Frames.

(** ** The steps of [clean_data] *)

Section Steps.
Context (lib : Library).

Lemma to_datetime_len s : series_len (to_datetime lib s) = series_len s.
Proof.
  destruct s; simpl; unfold objects_to_datetime; by rewrite ?length_fmap.
Qed.

Lemma astype_str_len s : series_len (astype_str lib s) = series_len s.
Proof. destruct s; simpl; by rewrite length_fmap. Qed.

Lemma str_map_len f s s' : str_map f s = Ok s' -> series_len s' = series_len s.
Proof. destruct s; simpl; intros; inv_ok. simpl. by rewrite length_fmap. Qed.

Lemma eq_scalar_len s v : length (eq_scalar s v) = series_len s.
Proof. destruct s; simpl; by rewrite length_fmap. Qed.

Lemma putmask_len {A} mask (v : A) l :
  length mask = length l -> length (putmask mask v l) = length l.
Proof. intros H. unfold putmask. rewrite length_zip_with. lia. Qed.

Lemma set_na_len mask s :
  length mask = series_len s -> series_len (set_na lib mask s) = series_len s.
Proof.
  destruct s as [l|l|l|l]; intros H; simpl in H.
  1,3,4: simpl; by apply putmask_len.
  destruct l as [|z l]; [done|]. unfold set_na, series_len.
  destruct (_ || _); [|done].
  rewrite putmask_len; by rewrite length_fmap.
Qed.

Lemma to_numeric_len s : series_len (to_numeric s) = series_len s.
Proof.
  destruct s as [l|l|l|l]; simpl; try done.
  - destruct (mapM _ _) as [zs|] eqn:E; simpl.
    + apply length_mapM in E. rewrite length_fmap in E. done.
    + by rewrite !length_fmap.
  - by rewrite length_fmap.
Qed.

Lemma compare_scalar_len cz cq s k m :
  compare_scalar cz cq s k = Ok m -> length m = series_len s.
Proof.
  destruct s; simpl; intros; inv_ok; by rewrite length_fmap.
Qed.

Lemma mask_or_len a b n :
  length a = n -> length b = n -> length (mask_or a b) = n.
Proof. intros. unfold mask_or. rewrite length_zip_with. lia. Qed.

Lemma standardize_columns_fmap df :
  standardize_columns df
  = (fun c : string * Series => (normalize_column c.1, c.2)) <$> df.
Proof.
  unfold standardize_columns, set_columns, columns.
  induction df as [|[x y] df IH]; [done|]. simpl. by f_equal.
Qed.

Lemma parse_dates_rel df df' :
  parse_dates lib df = Ok df' -> step_rel (fun x => x = "crash_date") df df'.
Proof.
  unfold parse_dates. intros H. inv_ok; [|apply step_rel_refl].
  eapply map_column_rel; [done|]. apply to_datetime_len.
Qed.

Lemma standardize_city_rel df df' :
  standardize_city lib df = Ok df' -> step_rel (fun x => x = "city") df df'.
Proof.
  unfold standardize_city. intros H. inv_ok; [|apply step_rel_refl].
  apply step_rel_trans with (setitem "city" a0 df).
  { apply (map_column_rel AttributeError "city" (fun _ => a0) df a E0).
    rewrite (str_map_len _ _ _ E1). apply astype_str_len. }
  apply step_rel_trans
    with (loc_set_na lib (eq_scalar a1 "") "city" (setitem "city" a0 df)).
  { apply (map_column_rel AttributeError "city" (set_na lib (eq_scalar a1 ""))
             _ a1 E2).
    apply set_na_len, eq_scalar_len. }
  apply (map_column_rel AttributeError "city" (fun _ => a3) _ a2 E3).
  apply (str_map_len _ _ _ E4).
Qed.

Lemma convert_injuries_rel df df' :
  convert_injuries df = Ok df' -> step_rel (fun x => x = "injuries") df df'.
Proof.
  unfold convert_injuries. intros H. inv_ok; [|apply step_rel_refl].
  eapply map_column_rel; [done|]. apply to_numeric_len.
Qed.

Lemma check_bounds_rel label lo hi df df' :
  check_bounds lib label lo hi df = Ok df' -> step_rel (fun x => x = label) df df'.
Proof.
  unfold check_bounds. intros H. inv_ok; [|apply step_rel_refl].
  eapply map_column_rel; [done|].
  apply set_na_len, mask_or_len; eapply compare_scalar_len; done.
Qed.

Lemma normalized_rel df dfn :
  normalized lib df = Ok dfn ->
  step_rel (fun x => x ∈ five) (standardize_columns df) dfn.
Proof.
  unfold normalized. intros H. inv_ok.
  apply parse_dates_rel in E. apply standardize_city_rel in E0.
  apply convert_injuries_rel in E1. apply check_bounds_rel in E2, H.
  repeat (eapply step_rel_trans;
          [eapply step_rel_weaken; [|eassumption]; intros ? ->; set_solver|]).
  apply step_rel_refl.
Qed.

Lemma cleaned_normalized df df' :
  cleaned lib df = Ok df' <->
  exists dfn, normalized lib df = Ok dfn /\ df' = drop_duplicates dfn.
Proof.
  unfold cleaned, normalized. split.
  - intros H. cbv zeta in *. inv_ok. eexists. split; [|done]. cbn.
    rewrite E0. cbn. rewrite E1. cbn. rewrite E2. cbn. done.
  - intros (dfn & H & ->). cbv zeta in *. inv_ok. cbn.
    rewrite E0. cbn. rewrite E1. cbn. rewrite E2. cbn. by rewrite H.
Qed.

End Steps.

(** ** Coordinates *)

Section Coordinates.
Context (lib : Library).

Lemma putmask_fmap {A B} (f g : A -> bool) (h : A -> B) (v : B) (l : list A) :
  putmask (mask_or (f <$> l) (g <$> l)) v (h <$> l)
  = (fun x => if f x || g x then v else h x) <$> l.
Proof.
  unfold putmask, mask_or. induction l as [|x l IH]; [done|].
  rewrite !fmap_cons. cbn [zip_with]. by rewrite IH.
Qed.

Lemma forallb_elem {A} (f : A -> bool) (l : list A) x :
  forallb f l = true -> x ∈ l -> f x = true.
Proof.
  intros H Hin. apply (proj1 (forallb_forall f l) H). by apply list_elem_of_In.
Qed.

Lemma Qlt_bool_inject (a b : Z) :
  Qlt_bool (inject_Z a) (inject_Z b) = (a <? b).
Proof.
  unfold Qlt_bool, Qle_bool. simpl. rewrite !Z.mul_1_r.
  by rewrite Z.ltb_antisym.
Qed.

Lemma Qlt_bool_false x y : Qlt_bool x y = false -> (y <= x)%Q.
Proof.
  unfold Qlt_bool. intros H. apply negb_false_iff in H.
  by apply Qle_bool_iff.
Qed.

Lemma set_na_int mask l :
  l <> [] ->
  set_na lib mask (Int64S l)
  = if existsb id mask || upcast_unmatched lib
    then Float64S (putmask mask None ((fun z => Some (inject_Z z)) <$> l))
    else Int64S l.
Proof. by destruct l. Qed.

Lemma existsb_mask_or {A} (f g : A -> bool) (l : list A) :
  existsb id (mask_or (f <$> l) (g <$> l)) = existsb (fun x => f x || g x) l.
Proof.
  unfold mask_or. induction l as [|x l IH]; [done|].
  rewrite !fmap_cons. cbn [zip_with existsb]. by rewrite IH.
Qed.

Lemma existsb_false_elem {A} (f : A -> bool) (l : list A) x :
  existsb f l = false -> x ∈ l -> f x = false.
Proof.
  intros H Hin. destruct (f x) eqn:E; [|done].
  rewrite <- H. symmetry. apply existsb_exists. exists x.
  split; [by apply list_elem_of_In|done].
Qed.

Lemma checked_in_range lo hi s s' : checked lib lo hi s s' -> in_range lo hi s'.
Proof.
  intros (below & above & Hb & Ha & ->). unfold in_range.
  destruct s as [l|l|l|l]; simpl in Hb, Ha; try discriminate.
  - destruct (forallb obj_isna l) eqn:E; [|discriminate]. inv_ok.
    unfold set_na. rewrite <- (list_fmap_id l) at 3. rewrite putmask_fmap.
    simpl. rewrite <- list_fmap_compose. apply Forall_fmap, Forall_forall.
    intros o Ho. simpl.
    pose proof (forallb_elem _ _ _ E Ho). by destruct o.
  - inv_ok. destruct l as [|z l]; [constructor|].
    rewrite set_na_int by done. generalize (z :: l). clear z l. intros l.
    rewrite existsb_mask_or.
    destruct (existsb _ l || upcast_unmatched lib) eqn:Ex.
    + rewrite putmask_fmap. cbn [cells].
      rewrite <- list_fmap_compose. apply Forall_fmap, Forall_forall.
      intros x _. simpl.
      destruct (x <? lo) eqn:E1; simpl; [done|].
      destruct (x >? hi) eqn:E2; simpl; [done|].
      rewrite Z.gtb_ltb in E2. rewrite <- !Zle_Qle. lia.
    + apply orb_false_iff in Ex as [Ex _]. cbn [cells].
      apply Forall_fmap, Forall_forall. intros x Hx. simpl.
      pose proof (existsb_false_elem _ _ _ Ex Hx) as Hf. simpl in Hf.
      apply orb_false_iff in Hf as [H1 H2]. rewrite Z.gtb_ltb in H2. lia.
  - inv_ok. unfold set_na. rewrite <- (list_fmap_id l) at 3.
    rewrite putmask_fmap. cbn [cells].
    rewrite <- list_fmap_compose. apply Forall_fmap, Forall_forall.
    intros [q|] _; simpl; [|done].
    destruct (Qlt_bool q (inject_Z lo)) eqn:E1; simpl; [done|].
    destruct (Qlt_bool (inject_Z hi) q) eqn:E2; simpl; [done|].
    split; by apply Qlt_bool_false.
Qed.

Lemma checked_clip lo hi s s' :
  checked lib lo hi s s' -> number <$> cells s' = clip lo hi ∘ number <$> cells s.
Proof.
  intros (below & above & Hb & Ha & ->).
  destruct s as [l|l|l|l]; simpl in Hb, Ha; try discriminate.
  - destruct (forallb obj_isna l) eqn:E; [|discriminate]. inv_ok.
    unfold set_na. rewrite <- (list_fmap_id l) at 3. rewrite putmask_fmap.
    simpl. rewrite <- !list_fmap_compose. apply list_fmap_ext.
    intros i o Ho. simpl.
    pose proof (forallb_elem _ _ o E (list_elem_of_lookup_2 _ _ _ Ho)).
    by destruct o.
  - inv_ok. destruct l as [|z l]; [done|].
    rewrite set_na_int by done. generalize (z :: l). clear z l. intros l.
    rewrite existsb_mask_or.
    destruct (existsb _ l || upcast_unmatched lib) eqn:Ex.
    + rewrite putmask_fmap. cbn [cells].
      rewrite <- !list_fmap_compose. apply list_fmap_ext.
      intros i x _. simpl. rewrite !Qlt_bool_inject, Z.gtb_ltb.
      by destruct ((x <? lo) || (hi <? x)).
    + apply orb_false_iff in Ex as [Ex _]. cbn [cells].
      rewrite <- !list_fmap_compose. apply list_fmap_ext.
      intros i x Hx. simpl.
      pose proof (existsb_false_elem _ _ _ Ex (list_elem_of_lookup_2 _ _ _ Hx))
        as Hf. simpl in Hf.
      rewrite Z.gtb_ltb in Hf. rewrite !Qlt_bool_inject. by rewrite Hf.
  - inv_ok. unfold set_na. rewrite <- (list_fmap_id l) at 3.
    rewrite putmask_fmap. cbn [cells].
    rewrite <- !list_fmap_compose. apply list_fmap_ext.
    intros i [q|] _; simpl; [|done]. by destruct (_ || _).
Qed.

Lemma check_bounds_checked label lo hi df df' s' :
  check_bounds lib label lo hi df = Ok df' -> (label, s') ∈ df' ->
  exists s, (label, s) ∈ df /\ checked lib lo hi s s'.
Proof.
  unfold check_bounds. intros H Hin. inv_ok.
  - apply map_column_elem in Hin as (y0 & Hy0 & ->).
    rewrite decide_True by done.
    rewrite (getitem_unique _ _ _ _ _ E0 Hy0). exists a.
    split; [by eapply getitem_elem|]. by exists a0, a1.
  - exfalso. apply bool_decide_eq_false in E. apply E.
    apply list_elem_of_fmap. by exists (label, s').
Qed.

Lemma select_sublist {A} mask (l : list A) : select mask l `sublist_of` l.
Proof.
  revert mask. induction l as [|x l IH]; intros [|[] mask]; simpl;
    try apply sublist_nil_l.
  - by apply sublist_skip.
  - by apply sublist_cons.
Qed.

Lemma select_fmap {A B} (f : A -> B) mask (l : list A) :
  select mask (f <$> l) = f <$> select mask l.
Proof.
  revert mask. induction l as [|x l IH]; intros [|[] mask]; simpl;
    try done; by rewrite IH.
Qed.

Lemma cells_select mask s :
  cells (select_series mask s) = select mask (cells s).
Proof. destruct s; simpl; by rewrite select_fmap. Qed.

Lemma in_range_select lo hi mask s :
  in_range lo hi s -> in_range lo hi (select_series mask s).
Proof.
  unfold in_range. rewrite cells_select, !Forall_forall.
  intros H c Hc. apply H. eapply elem_of_sublist; [done|apply select_sublist].
Qed.

Lemma drop_duplicates_elem df x y :
  (x, y) ∈ drop_duplicates df ->
  exists y0, (x, y0) ∈ df /\ y = select_series (not_duplicated df) y0.
Proof.
  unfold drop_duplicates. intros Hin.
  apply list_elem_of_fmap in Hin as ([x0 y0] & E & Hin).
  inversion E; subst. by exists y0.
Qed.

End Coordinates.

(** ** Rows and duplicates *)

Section Rows.

Lemma cell_eqb_refl c : cell_eqb c c = true.
Proof.
  destruct c; simpl; try done.
  - by apply bool_decide_eq_true.
  - apply Z.eqb_refl.
  - by apply Qeq_bool_iff.
  - apply Z.eqb_refl.
Qed.

Lemma cell_eqb_sym a b : cell_eqb a b = cell_eqb b a.
Proof.
  destruct a, b; simpl; try done.
  - apply bool_decide_ext. naive_solver.
  - apply Z.eqb_sym.
  - apply eq_true_iff_eq. rewrite !Qeq_bool_iff. split; intros H; by symmetry.
  - apply Z.eqb_sym.
Qed.

Lemma cell_eqb_trans a b c :
  cell_eqb a b = true -> cell_eqb b c = true -> cell_eqb a c = true.
Proof.
  destruct a, b, c; simpl; try done.
  - rewrite !bool_decide_eq_true. congruence.
  - rewrite !Z.eqb_eq. congruence.
  - rewrite !Qeq_bool_iff. intros H1 H2. by rewrite H1.
  - rewrite !Z.eqb_eq. congruence.
Qed.

Lemma row_eqb_sym r1 r2 : row_eqb r1 r2 = row_eqb r2 r1.
Proof.
  revert r2. induction r1 as [|a r1 IH]; intros [|b r2]; simpl; try done.
  rewrite IH. f_equal. destruct a, b; simpl; try done. apply cell_eqb_sym.
Qed.

Lemma row_eqb_trans r1 r2 r3 :
  row_eqb r1 r2 = true -> row_eqb r2 r3 = true -> row_eqb r1 r3 = true.
Proof.
  revert r2 r3. induction r1 as [|a r1 IH]; intros [|b r2] [|c r3]; simpl;
    try done.
  rewrite !andb_true_iff. intros [H1 H2] [H3 H4]. split; [|by eapply IH].
  destruct a, b, c; simpl in *; try done. by eapply cell_eqb_trans.
Qed.

Lemma occurs_app r rs1 rs2 : occurs r (rs1 ++ rs2) = occurs r rs1 || occurs r rs2.
Proof. apply existsb_app. Qed.

Lemma occurs_trans r r0 rs :
  row_eqb r r0 = true -> occurs r0 rs = true -> occurs r rs = true.
Proof.
  unfold occurs. rewrite !existsb_exists. intros H (x & Hx & Hr).
  exists x. split; [done|]. by eapply row_eqb_trans.
Qed.

(** A row is kept exactly when no row before it is the same. *)
Lemma keep_first_flag seen earlier rs i r :
  (forall x, occurs x seen = occurs x earlier) ->
  rs !! i = Some r ->
  keep_first seen rs !! i = Some (negb (occurs r (earlier ++ take i rs))).
Proof.
  revert seen earlier i. induction rs as [|r0 rs IH]; intros seen earlier i Hs Hi.
  { by rewrite lookup_nil in Hi. }
  simpl. fold (occurs r0 seen). destruct i as [|i]; simpl in Hi.
  - inv_ok. injection Hi as ->. rewrite take_0, app_nil_r, <- Hs.
    by destruct (occurs r seen).
  - replace (earlier ++ take (S i) (r0 :: rs))%list
      with ((earlier ++ [r0]) ++ take i rs)%list
      by (by rewrite <- app_assoc).
    destruct (occurs r0 seen) eqn:E; simpl; apply IH; try done.
    + intros x. rewrite occurs_app, <- Hs. simpl. rewrite orb_false_r.
      destruct (row_eqb x r0) eqn:Ex; [|by rewrite orb_false_r].
      rewrite orb_true_r. by eapply occurs_trans.
    + intros x. rewrite occurs_app, <- Hs. simpl. rewrite orb_false_r.
      apply orb_comm.
Qed.

(** No two of the rows that are kept are the same. *)
Lemma keep_first_distinct seen rs :
  let out := select (keep_first seen rs) rs in
  (forall r, r ∈ out -> occurs r seen = false)
  /\ (forall i j r1 r2, (i < j)%nat -> out !! i = Some r1 -> out !! j = Some r2 ->
        row_eqb r1 r2 = false).
Proof.
  revert seen. induction rs as [|r0 rs IH]; intros seen; simpl.
  { split; [by intros r Hr%elem_of_nil|]. intros i j r1 r2 _ Hi.
    by rewrite lookup_nil in Hi. }
  fold (occurs r0 seen). destruct (occurs r0 seen) eqn:E; simpl.
  { apply IH. }
  destruct (IH (r0 :: seen)) as [IH1 IH2]. split.
  - intros r [->|Hr]%elem_of_cons; [done|].
    specialize (IH1 r Hr). simpl in IH1. by apply orb_false_iff in IH1 as [_ ?].
  - intros [|i] [|j] r1 r2 Hij Hi Hj; simpl in *; try lia.
    + injection Hi as ->. apply list_elem_of_lookup_2 in Hj.
      specialize (IH1 r2 Hj). simpl in IH1.
      apply orb_false_iff in IH1 as [H _]. by rewrite row_eqb_sym.
    + apply (IH2 i j); [lia|done..].
Qed.

Lemma rows_rowsN n (cols : list (list cell)) :
  (fun i => (fun c : list cell => c !! i) <$> cols) <$> seq 0 n = rowsN n cols.
Proof.
  revert cols. induction n as [|n IH]; intros cols; [done|].
  simpl. f_equal.
  - apply list_fmap_ext. intros _ c _. by destruct c.
  - rewrite <- fmap_S_seq, <- list_fmap_compose, <- IH.
    apply list_fmap_ext. intros _ i _. simpl.
    rewrite <- list_fmap_compose. apply list_fmap_ext. intros _ c _.
    by destruct c.
Qed.

Lemma rows_cols df :
  rows df = rowsN (nrows df) ((fun c : string * Series => cells c.2) <$> df).
Proof.
  unfold rows, row. rewrite <- rows_rowsN. apply list_fmap_ext.
  intros _ i _. by rewrite <- list_fmap_compose.
Qed.

Lemma count_true_cons b mask :
  count_true (b :: mask) = if b then S (count_true mask) else count_true mask.
Proof.
  unfold count_true. destruct b.
  - by rewrite filter_cons_True.
  - by rewrite filter_cons_False.
Qed.

Lemma select_length {A} mask (l : list A) :
  length mask = length l -> length (select mask l) = count_true mask.
Proof.
  revert l. induction mask as [|b mask IH]; intros [|x l] Hl; try done.
  injection Hl as Hl. rewrite count_true_cons. cbn [select].
  destruct b; cbn [length]; by rewrite IH.
Qed.

Lemma rowsN_select n keep (cols : list (list cell)) :
  length keep = n -> Forall (fun c => length c = n) cols ->
  rowsN (count_true keep) (select keep <$> cols) = select keep (rowsN n cols).
Proof.
  revert n cols. induction keep as [|b keep IH]; intros n cols Hn Hc.
  { subst n. done. }
  destruct n as [|n]; [done|]. injection Hn as Hn.
  assert (Ht : Forall (fun c => length c = n) (tail <$> cols)).
  { apply Forall_fmap. eapply Forall_impl; [exact Hc|].
    intros [|x c]; simpl; [done|]. by intros [= ->]. }
  rewrite count_true_cons. cbn [rowsN]. destruct b; cbn [rowsN select].
  - f_equal.
    + rewrite <- list_fmap_compose. apply Forall_fmap_ext_1.
      eapply Forall_impl; [exact Hc|]. by intros [|x c].
    + rewrite <- IH with (n := n) by done. f_equal.
      rewrite <- !list_fmap_compose. apply Forall_fmap_ext_1.
      eapply Forall_impl; [exact Hc|]. by intros [|x c].
  - rewrite <- IH with (n := n) by done. f_equal.
    rewrite <- !list_fmap_compose. apply list_fmap_ext.
    intros _ [|x c] _; simpl; [by destruct keep|done].
Qed.

Lemma series_len_cells s : length (cells s) = series_len s.
Proof. destruct s; simpl; by rewrite length_fmap. Qed.

Lemma rows_drop_duplicates df :
  rectangular df ->
  rows (drop_duplicates df) = select (not_duplicated df) (rows df).
Proof.
  intros R. rewrite !rows_cols.
  assert (Hk : length (not_duplicated df) = nrows df).
  { unfold not_duplicated.
    assert (Hl : forall seen rs, length (keep_first seen rs) = length rs).
    { intros seen rs. revert seen. induction rs as [|r rs IH]; intros seen;
        [done|]. simpl. destruct (existsb _ _); simpl; by rewrite IH. }
    rewrite Hl. unfold rows. by rewrite length_fmap, length_seq. }
  assert (Hc : Forall (fun c => length c = nrows df)
                 ((fun c : string * Series => cells c.2) <$> df)).
  { apply Forall_fmap. eapply Forall_impl; [exact R|].
    intros c Hc. simpl. by rewrite series_len_cells. }
  rewrite <- (rowsN_select _ _ _ Hk Hc). f_equal.
  - destruct df as [|[x y] df]; [done|]. simpl nrows.
    rewrite <- series_len_cells, cells_select. apply select_length.
    rewrite Hk. simpl. by rewrite series_len_cells.
  - unfold drop_duplicates. rewrite <- !list_fmap_compose.
    apply list_fmap_ext. intros _ c _. simpl. apply cells_select.
Qed.

Lemma standardize_columns_rectangular df :
  rectangular df -> rectangular (standardize_columns df).
Proof.
  rewrite standardize_columns_fmap. unfold rectangular.
  assert (En : nrows ((fun c : string * Series => (normalize_column c.1, c.2))
                        <$> df) = nrows df) by (by destruct df as [|[] ?]).
  rewrite En. intros R. apply Forall_fmap. eapply Forall_impl; [exact R|]. done.
Qed.

End Rows.

(** ** The data dictionary *)

Section Dictionary.

Lemma isna_cells s : isna s = is_missing <$> cells s.
Proof.
  destruct s as [l|l|l|l]; simpl; rewrite <- list_fmap_compose;
    apply list_fmap_ext; intros _ x _; simpl; try done; by destruct x.
Qed.

Lemma filter_label_absent label (df : DataFrame) :
  label ∉ columns df -> filter (fun c : string * Series => c.1 = label) df = [].
Proof.
  unfold columns. induction df as [|[x y] df IH]; [done|].
  rewrite fmap_cons, not_elem_of_cons. simpl. intros [Hx Hdf].
  rewrite filter_cons_False by (simpl; congruence). by apply IH.
Qed.

(** A label that is carried by one column selects that column. *)
Lemma getitem_NoDup e label (df : DataFrame) s :
  NoDup (columns df) -> (label, s) ∈ df -> getitem e label df = Ok s.
Proof.
  unfold getitem, columns. induction df as [|[x y] df IH]; intros Hnd Hin.
  { by apply elem_of_nil in Hin. }
  rewrite fmap_cons in Hnd. apply NoDup_cons in Hnd as [Hx Hnd]. simpl in Hx.
  destruct (decide (x = label)) as [->|Hne].
  - rewrite filter_cons_True by done.
    rewrite (filter_label_absent label df Hx).
    apply elem_of_cons in Hin as [[= ->]|Hin]; [done|].
    exfalso. apply Hx. apply list_elem_of_fmap. by exists (label, s).
  - rewrite filter_cons_False by (simpl; congruence).
    apply elem_of_cons in Hin as [[= <- _]|Hin]; [done|]. by apply IH.
Qed.

Lemma append_entries_ok (df sub : DataFrame) lines :
  (forall c, c ∈ sub -> getitem AttributeError c.1 df = Ok c.2) ->
  append_entries df sub.*1 lines
  = Ok (lines ++ ((fun c : string * Series => entry c.1 c.2) <$> sub))%list.
Proof.
  revert lines. induction sub as [|[x y] sub IH]; intros lines Hsub.
  { simpl. by rewrite app_nil_r. }
  rewrite !fmap_cons. cbn [append_entries fst].
  pose proof (Hsub (x, y) ltac:(by left)) as Hx. simpl in Hx. rewrite Hx. cbn.
  rewrite IH by (intros c Hc; apply Hsub; by right).
  by rewrite <- app_assoc.
Qed.

End Dictionary.

(** ** The heap *)

Section Heap.
Context (lib : Library) (σ0 : gmap loc DataFrame).

Lemma wp_bind {A B} (m : M A) (k : A -> M B) Q σ :
  wp m (fun r σ' =>
          match r with
          | Ok a => wp (k a) Q σ'
          | Raise e => Q (Raise e) σ'
          end) σ ->
  wp (m ≫= k) Q σ.
Proof.
  unfold wp, mbind, M_bind. by destruct (m σ) as [[a|e] σ'].
Qed.

Lemma wp_ret {A} (a : A) (Q : result A -> gmap loc DataFrame -> Prop) σ :
  Q (Ok a) σ -> wp (mret a) Q σ.
Proof. done. Qed.

Lemma wp_lift {A} (r : result A) (Q : result A -> gmap loc DataFrame -> Prop) σ :
  Q r σ -> wp (Obj.lift r) Q σ.
Proof. done. Qed.

Lemma wp_read l1 d Q σ :
  owns σ0 l1 d σ -> Q (Ok d) σ -> wp (Obj.read l1) Q σ.
Proof. intros (_ & _ & H) HQ. unfold wp, Obj.read. by rewrite H. Qed.

Lemma owns_insert l1 d d' σ : owns σ0 l1 d σ -> owns σ0 l1 d' (<[l1 := d']> σ).
Proof.
  intros (Hext & Hnew & _). split; [|split; [done|]].
  - intros l d0 Hl. rewrite lookup_insert_ne; [by apply Hext|].
    intros ->. congruence.
  - by rewrite lookup_insert_eq.
Qed.

Lemma wp_modify l1 d f (Q : result unit -> gmap loc DataFrame -> Prop) σ :
  owns σ0 l1 d σ ->
  (forall σ', owns σ0 l1 (f d) σ' -> Q (Ok tt) σ') ->
  wp (Obj.modify l1 f) Q σ.
Proof.
  intros H HQ. unfold wp, Obj.modify. destruct H as (He & Hn & Hl).
  rewrite Hl. simpl. apply HQ. by apply owns_insert with (d := d).
Qed.

Lemma wp_pure {A} l1 d (f : DataFrame -> A) Q σ :
  owns σ0 l1 d σ -> Q (Ok (f d)) σ -> wp (d ← Obj.read l1; mret (f d)) Q σ.
Proof.
  intros H HQ. apply wp_bind, (wp_read _ _ _ _ H). by apply wp_ret.
Qed.

Lemma wp_getitem e l1 label d Q σ :
  owns σ0 l1 d σ -> Q (getitem e label d) σ -> wp (Obj.getitem e l1 label) Q σ.
Proof.
  intros H HQ. apply wp_bind, (wp_read _ _ _ _ H). by apply wp_lift.
Qed.

Lemma extends_fresh σ : extends σ0 σ -> σ0 !! fresh (dom σ) = None.
Proof.
  intros He. destruct (σ0 !! fresh (dom σ)) as [d|] eqn:E; [|done].
  exfalso. apply (is_fresh (dom σ)). apply elem_of_dom. eauto.
Qed.

Lemma extends_alloc σ d :
  extends σ0 σ -> owns σ0 (fresh (dom σ)) d (<[fresh (dom σ) := d]> σ).
Proof.
  intros He. pose proof (extends_fresh _ He) as Hf.
  split; [|split; [done|by rewrite lookup_insert_eq]].
  intros l d0 Hl. rewrite lookup_insert_ne; [by apply He|].
  intros <-. congruence.
Qed.

Lemma wp_copy l d (Q : result loc -> gmap loc DataFrame -> Prop) :
  σ0 !! l = Some d ->
  (forall l1 σ', owns σ0 l1 d σ' -> Q (Ok l1) σ') ->
  wp (Obj.copy l) Q σ0.
Proof.
  intros Hl HQ. unfold wp, Obj.copy, Obj.read, Obj.alloc, mbind, M_bind.
  rewrite Hl. simpl. apply HQ. apply extends_alloc. by intros ? ?.
Qed.

Lemma wp_drop_duplicates l1 d (Q : result loc -> gmap loc DataFrame -> Prop) σ :
  owns σ0 l1 d σ ->
  (forall l2 σ', owns σ0 l2 (drop_duplicates d) σ' -> Q (Ok l2) σ') ->
  wp (Obj.drop_duplicates l1) Q σ.
Proof.
  intros (He & Hn & Hl) HQ.
  unfold wp, Obj.drop_duplicates, Obj.read, Obj.alloc, mbind, M_bind.
  rewrite Hl. simpl. apply HQ. by apply extends_alloc.
Qed.

Lemma owns_extends l1 d σ : owns σ0 l1 d σ -> extends σ0 σ.
Proof. by intros (? & _). Qed.

Lemma wp_dates l1 d Q σ :
  owns σ0 l1 d σ ->
  block_post σ0 l1 (parse_dates lib d) Q ->
  wp (Obj.when (has_column "crash_date" d)
        (s ← Obj.getitem ValueError l1 "crash_date";
         Obj.setitem l1 "crash_date" (to_datetime lib s))) Q σ.
Proof.
  intros H HQ. unfold parse_dates, block_post in HQ.
  destruct (has_column "crash_date" d); simpl.
  - apply wp_bind, (wp_getitem _ _ _ _ _ _ H).
    destruct (getitem _ _ d) as [s|e]; cbn in HQ.
    + by apply (wp_modify _ _ _ _ _ H).
    + eapply HQ, owns_extends, H.
  - apply wp_ret. by apply HQ.
Qed.

Lemma wp_city l1 d Q σ :
  owns σ0 l1 d σ ->
  block_post σ0 l1 (standardize_city lib d) Q ->
  wp (Obj.when (has_column "city" d)
        (s ← Obj.getitem AttributeError l1 "city";
         s ← Obj.lift (str_strip (astype_str lib s));
         _ ← Obj.setitem l1 "city" s;
         s ← Obj.getitem AttributeError l1 "city";
         _ ← Obj.loc_set_na lib l1 (eq_scalar s "") "city";
         s ← Obj.getitem AttributeError l1 "city";
         s ← Obj.lift (str_title s);
         Obj.setitem l1 "city" s)) Q σ.
Proof.
  intros H HQ. unfold standardize_city, block_post in HQ.
  destruct (has_column "city" d); simpl; [|apply wp_ret; by apply HQ].
  apply wp_bind, (wp_getitem _ _ _ _ _ _ H).
  destruct (getitem _ _ d) as [s|e]; cbn in HQ;
    [|eapply HQ, owns_extends, H].
  apply wp_bind, wp_lift.
  destruct (str_strip _) as [s1|e]; cbn in HQ;
    [|eapply HQ, owns_extends, H].
  apply wp_bind, (wp_modify _ _ _ _ _ H). intros σ1 H1.
  apply wp_bind, (wp_getitem _ _ _ _ _ _ H1).
  destruct (getitem _ _ (setitem _ _ _)) as [s2|e]; cbn in HQ;
    [|eapply HQ, owns_extends, H1].
  apply wp_bind, (wp_modify _ _ _ _ _ H1). intros σ2 H2.
  apply wp_bind, (wp_getitem _ _ _ _ _ _ H2).
  destruct (getitem _ _ (loc_set_na _ _ _ _)) as [s3|e]; cbn in HQ;
    [|eapply HQ, owns_extends, H2].
  apply wp_bind, wp_lift.
  destruct (str_title _) as [s4|e]; cbn in HQ;
    [|eapply HQ, owns_extends, H2].
  by apply (wp_modify _ _ _ _ _ H2).
Qed.

Lemma wp_injuries l1 d Q σ :
  owns σ0 l1 d σ ->
  block_post σ0 l1 (convert_injuries d) Q ->
  wp (Obj.when (has_column "injuries" d)
        (s ← Obj.getitem TypeError l1 "injuries";
         Obj.setitem l1 "injuries" (to_numeric s))) Q σ.
Proof.
  intros H HQ. unfold convert_injuries, block_post in HQ.
  destruct (has_column "injuries" d); simpl.
  - apply wp_bind, (wp_getitem _ _ _ _ _ _ H).
    destruct (getitem _ _ d) as [s|e]; cbn in HQ.
    + by apply (wp_modify _ _ _ _ _ H).
    + eapply HQ, owns_extends, H.
  - apply wp_ret. by apply HQ.
Qed.

Lemma wp_bounds label lo hi l1 d Q σ :
  owns σ0 l1 d σ ->
  block_post σ0 l1 (check_bounds lib label lo hi d) Q ->
  wp (Obj.when (has_column label d)
        (s ← Obj.getitem ValueError l1 label;
         below ← Obj.lift (lt_scalar s lo);
         s ← Obj.getitem ValueError l1 label;
         above ← Obj.lift (gt_scalar s hi);
         Obj.loc_set_na lib l1 (mask_or below above) label)) Q σ.
Proof.
  intros H HQ. unfold check_bounds, block_post in HQ.
  destruct (has_column label d); simpl; [|apply wp_ret; by apply HQ].
  apply wp_bind, (wp_getitem _ _ _ _ _ _ H).
  destruct (getitem _ _ d) as [s|e] eqn:Es; cbn in HQ;
    [|eapply HQ, owns_extends, H].
  apply wp_bind, wp_lift.
  destruct (lt_scalar s lo) as [below|e]; cbn in HQ;
    [|eapply HQ, owns_extends, H].
  apply wp_bind, (wp_getitem _ _ _ _ _ _ H). rewrite Es.
  apply wp_bind, wp_lift.
  destruct (gt_scalar s hi) as [above|e]; cbn in HQ;
    [|eapply HQ, owns_extends, H].
  by apply (wp_modify _ _ _ _ _ H).
Qed.

Lemma clean_data_wp l df :
  σ0 !! l = Some df -> wp (clean_data lib l) (clean_data_post lib σ0 df) σ0.
Proof.
  intros Hl. unfold clean_data.
  apply wp_bind, (wp_copy _ _ _ Hl). intros l1 σ1 H1.
  apply wp_bind, (wp_pure _ _ columns _ _ H1).
  apply wp_bind, (wp_modify _ _ _ _ _ H1). intros σ2 H2.
  fold (standardize_columns df) in H2.
  apply wp_bind, (wp_pure _ _ (has_column "crash_date") _ _ H2).
  apply wp_bind, (wp_dates _ _ _ _ H2). unfold block_post.
  destruct (parse_dates lib _) as [d3|e] eqn:E3.
  2:{ intros σ' He. split; [done|]. unfold cleaned. cbv zeta. by rewrite E3. }
  intros σ3 H3.
  apply wp_bind, (wp_pure _ _ (has_column "city") _ _ H3).
  apply wp_bind, (wp_city _ _ _ _ H3). unfold block_post.
  destruct (standardize_city lib _) as [d4|e] eqn:E4.
  2:{ intros σ' He. split; [done|]. unfold cleaned. cbv zeta.
      rewrite E3. cbn. by rewrite E4. }
  intros σ4 H4.
  apply wp_bind, (wp_pure _ _ (has_column "injuries") _ _ H4).
  apply wp_bind, (wp_injuries _ _ _ _ H4). unfold block_post.
  destruct (convert_injuries _) as [d5|e] eqn:E5.
  2:{ intros σ' He. split; [done|]. unfold cleaned. cbv zeta.
      rewrite E3. cbn. rewrite E4. cbn. by rewrite E5. }
  intros σ5 H5.
  apply wp_bind, (wp_pure _ _ (has_column "latitude") _ _ H5).
  apply wp_bind, (wp_bounds _ _ _ _ _ _ _ H5). unfold block_post.
  destruct (check_bounds lib "latitude" _ _ _) as [d6|e] eqn:E6.
  2:{ intros σ' He. split; [done|]. unfold cleaned. cbv zeta.
      rewrite E3. cbn. rewrite E4. cbn. rewrite E5. cbn. by rewrite E6. }
  intros σ6 H6.
  apply wp_bind, (wp_pure _ _ (has_column "longitude") _ _ H6).
  apply wp_bind, (wp_bounds _ _ _ _ _ _ _ H6). unfold block_post.
  destruct (check_bounds lib "longitude" _ _ _) as [d7|e] eqn:E7.
  2:{ intros σ' He. split; [done|]. unfold cleaned. cbv zeta.
      rewrite E3. cbn. rewrite E4. cbn. rewrite E5. cbn. rewrite E6. cbn.
      by rewrite E7. }
  intros σ7 H7.
  apply wp_bind, (wp_drop_duplicates _ _ _ _ H7). intros l2 σ8 (He & Hn & H8).
  apply wp_ret. split; [done|]. split; [done|].
  exists (drop_duplicates d7). split; [|done]. unfold cleaned. cbv zeta.
  rewrite E3. cbn. rewrite E4. cbn. rewrite E5. cbn. rewrite E6. cbn.
  by rewrite E7.
Qed.

End Heap.

(** ** The city column *)

Section City.
Context (lib : Library).
Import PyStr PyStrFacts.

Lemma title_char_cased c :
  iscased c = true ->
  iscased (tolower c) = true /\ islower (tolower c) = true
  /\ iscased (toupper c) = true /\ isupper (toupper c) = true.
Proof. each_char c. Qed.

Lemma title_char_space c :
  isspace (tolower c) = isspace c /\ isspace (toupper c) = isspace c.
Proof. each_char c. Qed.

Lemma title_chars_cased b l : title_cased_from b (title_chars b l) = true.
Proof.
  revert b. induction l as [|c l IH]; intros b; [done|]. simpl.
  destruct (iscased c) eqn:E; simpl.
  - destruct (title_char_cased c E) as (H1 & H2 & H3 & H4).
    destruct b; rewrite ?H1, ?H2, ?H3, ?H4; simpl; apply IH.
  - rewrite E. apply IH.
Qed.

Lemma title_chars_space b l :
  Forall2 (fun c c' => isspace c' = isspace c) l (title_chars b l).
Proof.
  revert b. induction l as [|c l IH]; intros b; [constructor|]. simpl.
  destruct (title_char_space c) as [H1 H2].
  destruct (iscased c); [destruct b|]; by constructor.
Qed.

Lemma head_ok_Forall2 l l' :
  Forall2 (fun c c' => isspace c' = isspace c) l l' ->
  head_ok l = true -> head_ok l' = true.
Proof. destruct 1 as [|c c' ? ? H]; simpl; [done|]. by rewrite H. Qed.

Lemma trimmed_title l : trimmed l -> trimmed (title_chars false l).
Proof.
  intros [H1 H2]. pose proof (title_chars_space false l) as H. split.
  - by eapply head_ok_Forall2.
  - apply Forall2_reverse in H. unfold reverse in H. rewrite <- !rev_alt in H.
    by eapply head_ok_Forall2.
Qed.

Lemma title_strip_clean x :
  strip x <> "" -> clean_text (title (strip x)).
Proof.
  intros Hne. unfold clean_text, title. rewrite chars_text.
  assert (Hc : chars (strip x) <> []).
  { intros Hc. apply Hne. by rewrite <- (text_chars (strip x)), Hc. }
  split; [|split].
  - intros Ht. apply (f_equal chars) in Ht. rewrite chars_text in Ht.
    destruct (chars (strip x)) as [|c l]; [done|]. simpl in Ht.
    by destruct (iscased c).
  - apply trimmed_title. unfold strip. rewrite chars_text.
    apply strip_chars_trimmed.
  - apply title_chars_cased.
Qed.

Lemma astype_str_text s : exists xs, astype_str lib s = ObjectS (PyStr <$> xs).
Proof.
  destruct s as [l|l|l|l]; simpl.
  - exists (str_of_obj <$> l). by rewrite <- list_fmap_compose.
  - exists (PyStr.str_of_Z <$> l). by rewrite <- list_fmap_compose.
  - exists (from_option (repr_float lib) "nan" <$> l).
    by rewrite <- list_fmap_compose.
  - exists (from_option (str_timestamp lib) "NaT" <$> l).
    by rewrite <- list_fmap_compose.
Qed.

Lemma city_of_clean xs : Forall clean_city (cells (city_of xs)).
Proof.
  unfold city_of. simpl. rewrite <- list_fmap_compose.
  apply Forall_fmap, Forall_forall. intros x _. simpl.
  case_bool_decide; simpl; [done|]. by apply title_strip_clean.
Qed.

Lemma step_rel_other label x (df df' : DataFrame) y :
  step_rel (fun l => l = label) df df' -> x <> label ->
  (x, y) ∈ df' -> (x, y) ∈ df.
Proof.
  intros H Hne Hin. destruct (step_rel_elem _ _ _ _ _ H Hin) as (y0 & Hy0 & Heq).
  by rewrite (Heq Hne).
Qed.

Lemma setitem_elem label s (df : DataFrame) s' :
  (label, s') ∈ setitem label s df -> s' = s.
Proof.
  intros (y0 & _ & ->)%map_column_elem. by rewrite decide_True.
Qed.

Lemma standardize_city_text df df' s' :
  standardize_city lib df = Ok df' -> ("city", s') ∈ df' ->
  exists xs, s' = city_of xs.
Proof.
  unfold standardize_city. intros H Hin. inv_ok.
  - apply setitem_elem in Hin as ->.
    apply getitem_elem, setitem_elem in E2 as ->.
    apply getitem_elem, map_column_elem in E3 as (y0 & Hy0 & ->).
    apply setitem_elem in Hy0 as ->. rewrite decide_True in E4 by done.
    destruct (astype_str_text a) as [xs Hxs]. rewrite Hxs in E1.
    simpl in E1. inv_ok. exists xs. simpl in E4.
    unfold putmask in E4. rewrite <- !list_fmap_compose in E4.
    rewrite zip_with_fmap_l, zip_with_fmap_r, zip_with_diag in E4.
    rewrite <- !list_fmap_compose in E4. inv_ok.
    unfold city_of. f_equal. apply list_fmap_ext. intros _ x _. simpl.
    by case_bool_decide.
  - exfalso. apply bool_decide_eq_false in E. apply E.
    apply list_elem_of_fmap. by exists ("city", s').
Qed.


End City.

(** ** When [clean_data] returns *)

Section Returns.
Context (lib : Library).

Lemma columns_map_column label g (df : DataFrame) :
  columns (map_column label g df) = columns df.
Proof.
  unfold columns, map_column. rewrite <- list_fmap_compose.
  apply list_fmap_ext. intros _ c _. simpl. by case_decide.
Qed.

Lemma has_column_elem label (df : DataFrame) :
  has_column label df = true -> exists s, (label, s) ∈ df.
Proof.
  intros H. apply bool_decide_eq_true in H.
  apply list_elem_of_fmap in H as ([x y] & -> & Hin). by exists y.
Qed.

Lemma getitem_map_column e label g (df : DataFrame) s :
  NoDup (columns df) -> getitem e label df = Ok s ->
  getitem e label (map_column label g df) = Ok (g s).
Proof.
  intros Hnd Hget. apply getitem_NoDup; [by rewrite columns_map_column|].
  apply getitem_elem in Hget. unfold map_column.
  apply list_elem_of_fmap. exists (label, s). simpl.
  by rewrite decide_True.
Qed.

Lemma str_map_text f xs :
  str_map f (ObjectS (PyStr <$> xs)) = Ok (ObjectS (PyStr <$> (f <$> xs))).
Proof. simpl. by rewrite <- !list_fmap_compose. Qed.

Lemma bind_ok {A B} (a : A) (f : A -> result B) : Ok a ≫= f = f a.
Proof. done. Qed.

Lemma parse_dates_returns df :
  NoDup (columns df) -> exists df', parse_dates lib df = Ok df'.
Proof.
  intros Hnd. unfold parse_dates.
  destruct (has_column "crash_date" df) eqn:E; [|by eexists].
  destruct (has_column_elem _ _ E) as [s Hs].
  rewrite (getitem_NoDup _ _ _ _ Hnd Hs). by eexists.
Qed.

Lemma standardize_city_returns df :
  NoDup (columns df) -> exists df', standardize_city lib df = Ok df'.
Proof.
  intros Hnd. unfold standardize_city.
  destruct (has_column "city" df) eqn:E; [|by eexists].
  destruct (has_column_elem _ _ E) as [s Hs].
  pose proof (getitem_NoDup AttributeError _ _ _ Hnd Hs) as Hget.
  rewrite Hget, bind_ok.
  destruct (astype_str_text lib s) as [xs ->].
  unfold str_strip. rewrite str_map_text, bind_ok. cbv zeta.
  set (s1 := ObjectS (PyStr <$> (PyStr.strip <$> xs))).
  assert (G1 : getitem AttributeError "city" (setitem "city" s1 df) = Ok s1)
    by apply (getitem_map_column _ _ (fun _ => s1) _ _ Hnd Hget).
  assert (Hnd1 : NoDup (columns (setitem "city" s1 df)))
    by (unfold setitem; by rewrite columns_map_column).
  rewrite G1, bind_ok. unfold loc_set_na.
  rewrite (getitem_map_column _ _ (set_na lib (eq_scalar s1 "")) _ _ Hnd1 G1).
  rewrite bind_ok. unfold s1, str_title, set_na, str_map.
  rewrite bind_ok. by eexists.
Qed.

Lemma convert_injuries_returns (df : DataFrame) :
  NoDup (columns df) -> exists df', convert_injuries df = Ok df'.
Proof.
  intros Hnd. unfold convert_injuries.
  destruct (has_column "injuries" df) eqn:E; [|by eexists].
  destruct (has_column_elem _ _ E) as [s Hs].
  rewrite (getitem_NoDup _ _ _ _ Hnd Hs). by eexists.
Qed.

Lemma compare_scalar_returns cz cq s k :
  comparable s = true -> exists m, compare_scalar cz cq s k = Ok m.
Proof.
  destruct s as [l|l|l|l]; simpl; intros H; try discriminate; try by eexists.
  rewrite H. by eexists.
Qed.

Lemma check_bounds_returns label lo hi df :
  NoDup (columns df) ->
  (forall s, (label, s) ∈ df -> comparable s = true) ->
  exists df', check_bounds lib label lo hi df = Ok df'.
Proof.
  intros Hnd Hc. unfold check_bounds.
  destruct (has_column label df) eqn:E; [|by eexists].
  destruct (has_column_elem _ _ E) as [s Hs].
  rewrite (getitem_NoDup _ _ _ _ Hnd Hs). cbn.
  destruct (compare_scalar_returns Z.ltb Qlt_bool s lo (Hc s Hs)) as [m1 H1].
  destruct (compare_scalar_returns Z.gtb (fun x y => Qlt_bool y x) s hi (Hc s Hs))
    as [m2 H2].
  unfold lt_scalar, gt_scalar. rewrite H1. cbn. rewrite H2. cbn. by eexists.
Qed.

(** X3. [clean_data] returns when the normalised labels are distinct and
    the latitude and longitude columns are numeric, or hold missing values
    only. *)
Lemma cleaned_returns df :
  NoDup (normalize_column <$> columns df) ->
  (forall name s, (name, s) ∈ df ->
     normalize_column name = "latitude" \/ normalize_column name = "longitude" ->
     comparable s = true) ->
  exists df', cleaned lib df = Ok df'.
Proof.
  intros Hnd Hc. unfold cleaned. cbv zeta.
  assert (Hnd0 : NoDup (columns (standardize_columns df))).
  { rewrite standardize_columns_fmap. unfold columns in *.
    rewrite <- list_fmap_compose. rewrite <- list_fmap_compose in Hnd. done. }
  assert (Hc0 : forall label s, (label, s) ∈ standardize_columns df ->
                  label = "latitude" \/ label = "longitude" ->
                  comparable s = true).
  { intros label s Hin Hl. rewrite standardize_columns_fmap in Hin.
    apply list_elem_of_fmap in Hin as ([x y] & [= -> ->] & Hin).
    by apply (Hc x y). }
  destruct (parse_dates_returns _ Hnd0) as [d1 E1]. rewrite E1. cbn.
  pose proof (parse_dates_rel _ _ _ E1) as R1.
  assert (Hnd1 : NoDup (columns d1)) by (by rewrite (step_rel_columns _ _ _ R1)).
  destruct (standardize_city_returns _ Hnd1) as [d2 E2]. rewrite E2. cbn.
  pose proof (standardize_city_rel _ _ _ E2) as R2.
  assert (Hnd2 : NoDup (columns d2)) by (by rewrite (step_rel_columns _ _ _ R2)).
  destruct (convert_injuries_returns _ Hnd2) as [d3 E3]. rewrite E3. cbn.
  pose proof (convert_injuries_rel _ _ E3) as R3.
  assert (Hnd3 : NoDup (columns d3)) by (by rewrite (step_rel_columns _ _ _ R3)).
  assert (Hc3 : forall label s, (label, s) ∈ d3 ->
                  label = "latitude" \/ label = "longitude" ->
                  comparable s = true).
  { intros label s Hin Hl. apply (Hc0 label s); [|done].
    apply (step_rel_other _ _ _ _ _ R1); [by destruct Hl as [-> | ->]|].
    apply (step_rel_other _ _ _ _ _ R2); [by destruct Hl as [-> | ->]|].
    apply (step_rel_other _ _ _ _ _ R3); [by destruct Hl as [-> | ->]|].
    done. }
  destruct (check_bounds_returns "latitude" (-90) 90 d3 Hnd3) as [d4 E4].
  { intros s Hs. apply (Hc3 "latitude" s Hs). by left. }
  rewrite E4. cbn.
  pose proof (check_bounds_rel _ _ _ _ _ _ E4) as R4.
  assert (Hnd4 : NoDup (columns d4)) by (by rewrite (step_rel_columns _ _ _ R4)).
  destruct (check_bounds_returns "longitude" (-180) 180 d4 Hnd4) as [d5 E5].
  { intros s Hs. apply (Hc3 "longitude" s); [|by right].
    by apply (step_rel_other _ _ _ _ _ R4). }
  rewrite E5. cbn. by eexists.
Qed.

End Returns.

(** ** The decimal text of a count *)

Section Decimal.
Import PyStr Parse.

Lemma number_of_digits_from (l : list ascii) (z : Z) :
  fold_left (fun acc c => 10 * acc + digit c) l z
  = z * 10 ^ Z.of_nat (length l) + number_of_digits l.
Proof.
  unfold number_of_digits. revert z.
  induction l as [|c l IH]; intros z; simpl fold_left.
  - simpl. lia.
  - rewrite IH, (IH (10 * 0 + digit c)).
    rewrite length_cons, Nat2Z.inj_succ, Z.pow_succ_r by lia. lia.
Qed.

Lemma digit_char (d : N) : (d < 10)%N -> digit (ascii_of_N (48 + d)) = Z.of_N d.
Proof.
  intros H. unfold digit, code. rewrite N_ascii_embedding by lia. lia.
Qed.

Lemma digits_fuel_value fuel n acc :
  (n < 2 ^ N.of_nat fuel)%N ->
  number_of_digits (digits_fuel fuel n acc)
  = Z.of_N n * 10 ^ Z.of_nat (length acc) + number_of_digits acc.
Proof.
  revert n acc. induction fuel as [|fuel IH]; intros n acc Hn.
  - simpl in Hn. assert (n = 0%N) by lia. subst. simpl. lia.
  - cbn [digits_fuel].
    assert (Hd : number_of_digits (ascii_of_N (48 + n mod 10) :: acc)
                 = Z.of_N (n mod 10) * 10 ^ Z.of_nat (length acc)
                   + number_of_digits acc).
    { unfold number_of_digits at 1. simpl fold_left.
      rewrite number_of_digits_from, digit_char by (apply N.mod_lt; lia). lia. }
    destruct (n <? 10)%N eqn:E.
    + apply N.ltb_lt in E. rewrite Hd, N.mod_small by done. done.
    + apply N.ltb_ge in E. rewrite IH.
      * rewrite Hd, length_cons, Nat2Z.inj_succ, Z.pow_succ_r by lia.
        rewrite (N.div_mod n 10) at 3 by lia.
        rewrite N2Z.inj_add, N2Z.inj_mul. lia.
      * rewrite Nat2N.inj_succ, N.pow_succ_r' in Hn.
        apply N.Div0.div_lt_upper_bound. lia.
Qed.

(** [str_of_N] writes a number in base ten. *)
Lemma str_of_N_decimal (n : N) :
  number_of_digits (chars (str_of_N n)) = Z.of_N n.
Proof.
  unfold str_of_N. rewrite PyStrFacts.chars_text, digits_fuel_value.
  - change (number_of_digits []) with 0.
    change (10 ^ Z.of_nat (length (@nil ascii))) with 1. lia.
  - rewrite Nat2N.inj_succ, N2Nat.id. destruct n as [|p]; [done|].
    apply N.log2_spec. lia.
Qed.

End Decimal.

(** ** The properties of the description *)

Section Claims.
Context (lib : Library).

(** C4. In the output of [clean_data] every latitude is missing or within
    [[-90, 90]] and every longitude is missing or within [[-180, 180]]; and
    the range check takes a number strictly below the lower bound or strictly
    above the upper bound to missing, leaves the other numbers as they are
    and leaves a missing value missing. *)
Theorem coordinates_in_range :
  (forall df df', cleaned lib df = Ok df' ->
     (forall s, ("latitude", s) ∈ df' -> in_range (-90) 90 s)
     /\ (forall s, ("longitude", s) ∈ df' -> in_range (-180) 180 s))
  /\ (forall label lo hi df df' s',
        check_bounds lib label lo hi df = Ok df' -> (label, s') ∈ df' ->
        exists s, (label, s) ∈ df
          /\ number <$> cells s' = clip lo hi ∘ number <$> cells s).
Proof.
  split.
  - intros df df' H. apply cleaned_normalized in H as (dfn & Hn & ->).
    unfold normalized in Hn. cbv zeta in Hn. inv_ok.
    split; intros s Hs; apply drop_duplicates_elem in Hs as (y & Hy & ->);
      apply in_range_select.
    + apply check_bounds_rel in Hn as Hrel.
      destruct (step_rel_elem _ _ _ _ _ Hrel Hy) as (y0 & Hy0 & Heq).
      rewrite Heq by done.
      destruct (check_bounds_checked lib _ _ _ _ _ _ E2 Hy0) as (s0 & _ & Hc).
      by eapply checked_in_range.
    + destruct (check_bounds_checked lib _ _ _ _ _ _ Hn Hy) as (s0 & _ & Hc).
      by eapply checked_in_range.
  - intros label lo hi df df' s' H Hin.
    destruct (check_bounds_checked lib _ _ _ _ _ _ H Hin) as (s & Hs & Hc).
    exists s. split; [done|]. by apply (checked_clip lib).
Qed.

(** C10. [clean_data] keeps the number and the order of the columns, each
    under its normalised label; a column whose normalised label is none of
    crash_date, city, injuries, latitude and longitude comes out with the
    values it had, in the rows that duplicate removal keeps. *)
Theorem other_columns_pass_through df df' :
  cleaned lib df = Ok df' ->
  length df' = length df
  /\ columns df' = normalize_column <$> columns df
  /\ exists dfn, normalized lib df = Ok dfn
       /\ forall i name s,
            df !! i = Some (name, s) -> normalize_column name ∉ five ->
            df' !! i
            = Some (normalize_column name,
                    select_series (not_duplicated dfn) s).
Proof.
  intros H. apply cleaned_normalized in H as (dfn & Hn & ->).
  pose proof (normalized_rel _ _ _ Hn) as Hrel.
  assert (Hcols : columns (drop_duplicates dfn) = normalize_column <$> columns df).
  { transitivity (columns dfn).
    - unfold drop_duplicates, columns. rewrite <- list_fmap_compose.
      by apply list_fmap_ext.
    - rewrite (step_rel_columns _ _ _ Hrel), standardize_columns_fmap.
      unfold columns. rewrite <- !list_fmap_compose. by apply list_fmap_ext. }
  split; [|split; [done|]].
  - apply (f_equal length) in Hcols. unfold columns in Hcols.
    by rewrite !length_fmap in Hcols.
  - exists dfn. split; [done|]. intros i name s Hi Hname.
    rewrite standardize_columns_fmap in Hrel.
    assert (Hi' : ((fun c : string * Series => (normalize_column c.1, c.2))
                     <$> df) !! i = Some (normalize_column name, s)).
    { by rewrite list_lookup_fmap, Hi. }
    destruct (Forall2_lookup_l _ _ _ _ _ Hrel Hi') as ([x y] & Hy & H1 & _ & H3).
    simpl in *. subst x. rewrite (H3 Hname) in Hy.
    unfold drop_duplicates. by rewrite list_lookup_fmap, Hy.
Qed.

(** C5. The output of [clean_data] has no two rows that are the same in
    every column.  Duplicates are removed from the frame that all the other
    steps have produced; a row is kept exactly when no row before it is the
    same, and the rows that are kept stay in their order. *)
Theorem duplicates_removed_last df df' :
  rectangular df ->
  cleaned lib df = Ok df' ->
  exists dfn, normalized lib df = Ok dfn
    /\ rows df' = select (not_duplicated dfn) (rows dfn)
    /\ (forall i r, rows dfn !! i = Some r ->
          not_duplicated dfn !! i
          = Some (negb (occurs r (take i (rows dfn)))))
    /\ (forall i j r1 r2, (i < j)%nat ->
          rows df' !! i = Some r1 -> rows df' !! j = Some r2 ->
          row_eqb r1 r2 = false).
Proof.
  intros R H. apply cleaned_normalized in H as (dfn & Hn & ->).
  assert (Rn : rectangular dfn).
  { eapply step_rel_rectangular; [exact (normalized_rel lib _ _ Hn)|].
    by apply standardize_columns_rectangular. }
  exists dfn. rewrite (rows_drop_duplicates _ Rn).
  split; [done|]. split; [done|]. split.
  - intros i r Hi. unfold not_duplicated.
    by rewrite (keep_first_flag [] [] _ i r).
  - apply (keep_first_distinct [] (rows dfn)).
Qed.


(** C8. [clean_data] returns a new object and does not change the one it is
    given: after the call, whether it returns or raises, every object of the
    caller's heap, the argument included, has the value it had before (labels,
    number of rows and cells), and the object returned was not in that heap.
    The value returned is [cleaned] of the value of the argument. *)
Theorem clean_data_leaves_input_unchanged
    (σ : gmap loc DataFrame) (l : loc) (df : DataFrame) :
  σ !! l = Some df ->
  exists r σ',
    clean_data lib l σ = (r, σ')
    /\ σ' !! l = Some df
    /\ (forall l0 d0, σ !! l0 = Some d0 -> σ' !! l0 = Some d0)
    /\ match r with
       | Ok l' =>
           l' <> l /\ σ !! l' = None
           /\ exists df', cleaned lib df = Ok df' /\ σ' !! l' = Some df'
       | Raise e => cleaned lib df = Raise e
       end.
Proof.
  intros Hl. pose proof (clean_data_wp lib σ l df Hl) as H.
  unfold wp, clean_data_post in H.
  destruct (clean_data lib l σ) as [r σ'] eqn:E. simpl in H.
  destruct H as [He Hr]. exists r, σ'.
  split; [done|]. split; [by apply He|]. split; [done|].
  destruct r as [l'|e]; [|done].
  destruct Hr as [Hn Hr]. split; [|done]. intros ->. congruence.
Qed.

End Claims.

(** ** The example dataset and other concrete runs *)

Example normalize_crash_date : normalize_column " Crash Date " = "crash_date".
Proof. reflexivity. Qed.

Example str_of_N_examples :
  PyStr.str_of_N 0 = "0" /\ PyStr.str_of_N 9 = "9" /\ PyStr.str_of_N 10 = "10"
  /\ PyStr.str_of_N 1234 = "1234".
Proof. repeat split; reflexivity. Qed.

Example title_examples :
  PyStr.title "CINCINNATI" = "Cincinnati" /\ PyStr.title "new york" = "New York"
  /\ PyStr.title "o'neil st." = "O'Neil St.".
Proof. repeat split; reflexivity. Qed.

Example parse_number_examples :
  Parse.parse_number "2" = Some (Parse.Integer 2)
  /\ Parse.parse_number " -1.50 " = Some (Parse.Floating (-3 # 2))
  /\ Parse.parse_number "1e3" = Some (Parse.Floating 1000)
  /\ Parse.parse_number "unknown" = None
  /\ Parse.parse_number "" = None.
Proof. repeat split; reflexivity. Qed.

Example strptime_examples :
  Parse.guess_ymd "2026-05-01" = Some "-"%char
  /\ Parse.strptime_ymd "-" "2026-05-01" = Some 1777593600000000000
  /\ Parse.strptime_ymd "-" "2026/05/02" = None
  /\ Parse.strptime_ymd "/" "2026/05/02" = Some 1777680000000000000
  /\ Parse.strptime_ymd "-" "2026-02-29" = None
  /\ Parse.strptime_ymd "-" "1970-01-01" = Some 0.
Proof. repeat split; reflexivity. Qed.

Lemma coordinates_in_range_witness :
  cleaned plain_library roads = Ok roads_cleaned
  /\ forall s, ("latitude", s) ∈ roads_cleaned -> in_range (-90) 90 s.
Proof.
  split; [vm_compute; reflexivity|].
  apply (proj1 (coordinates_in_range plain_library) roads roads_cleaned).
  vm_compute; reflexivity.
Defined.

Lemma duplicates_removed_last_witness :
  rectangular roads
  /\ cleaned plain_library roads = Ok roads_cleaned
  /\ exists dfn, normalized plain_library roads = Ok dfn
       /\ rows roads_cleaned = select (not_duplicated dfn) (rows dfn).
Proof.
  assert (R : rectangular roads) by (repeat constructor).
  assert (H : cleaned plain_library roads = Ok roads_cleaned)
    by (vm_compute; reflexivity).
  split; [exact R|]. split; [exact H|].
  destruct (duplicates_removed_last plain_library roads roads_cleaned R H)
    as (dfn & Hn & Hrows & _).
  exists dfn. split; [exact Hn|exact Hrows].
Defined.


Lemma clean_data_leaves_input_unchanged_witness :
  ({[ 1%positive := roads ]} : gmap loc DataFrame) !! 1%positive = Some roads
  /\ exists r σ',
       clean_data plain_library 1%positive {[ 1%positive := roads ]} = (r, σ')
       /\ σ' !! 1%positive = Some roads.
Proof.
  assert (H : ({[ 1%positive := roads ]} : gmap loc DataFrame) !! 1%positive
              = Some roads) by apply lookup_singleton_eq.
  split; [exact H|].
  destruct (clean_data_leaves_input_unchanged plain_library _ _ _ H)
    as (r & σ' & Hrun & Hsame & _).
  exists r, σ'. split; [exact Hrun|exact Hsame].
Defined.

Lemma other_columns_pass_through_witness :
  cleaned plain_library roads = Ok roads_cleaned
  /\ length roads_cleaned = length roads
  /\ columns roads_cleaned = normalize_column <$> columns roads.
Proof.
  assert (H : cleaned plain_library roads = Ok roads_cleaned)
    by (vm_compute; reflexivity).
  split; [exact H|].
  destruct (other_columns_pass_through plain_library roads roads_cleaned H)
    as (Hlen & Hcols & _).
  split; [exact Hlen|exact Hcols].
Defined.

(** Duplicate removal takes rows out of every column: the column the
    program does not know goes from three values to two. *)
Lemma unknown_column_loses_a_row :
  cleaned plain_library roads = Ok roads_cleaned
  /\ roads !! 1%nat
     = Some ("Road Name", ObjectS [PyStr "I-75"; PyStr "I-75"; PyStr "US 27"])
  /\ normalize_column "Road Name" = "road_name"
  /\ roads_cleaned !! 1%nat
     = Some ("road_name", ObjectS [PyStr "I-75"; PyStr "US 27"]).
Proof. repeat split; vm_compute; reflexivity. Qed.

(** *** Where the program departs from its description *)

(** C6. On the example dataset [clean_data] returns four rows; the city of
    row 2 is "Cincinnati", the date and the injuries of row 3 and the city of
    row 4 are missing.  The date of row 2, "2026/05/02", is missing too: it
    does not have the layout inferred from row 1.  The columns have 2, 1, 1,
    1 and 1 missing values. *)
Theorem example_dataset_cleaned (lib : Library) :
  cleaned lib (load_data None) = Ok example_cleaned
  /\ nrows example_cleaned = 4%nat
  /\ missing_count <$> example_cleaned.*2 = [2; 1; 1; 1; 1]%nat
  /\ write_data_dictionary example_cleaned
     = Ok (preamble ++
           [ "- **crash_date** (datetime64[ns]) â€” missing: 2
";
             "- **city** (object) â€” missing: 1
";
             "- **injuries** (float64) â€” missing: 1
";
             "- **latitude** (float64) â€” missing: 1
";
             "- **longitude** (float64) â€” missing: 1
" ])%list.
Proof. repeat split; vm_compute; reflexivity. Qed.

(** C1. A city that is missing in the input is not missing in the output:
    [astype(str)] turns it into text before the empty text is looked for, and
    the text is title-cased like any other. *)
Theorem missing_city_becomes_text (lib : Library) :
  cleaned lib [("City", ObjectS [PyStr " new york"; PyStr "  "; PyNone; PyNaN])]
  = Ok [("city", ObjectS [PyStr "New York"; PyNA; PyStr "None"; PyStr "Nan"])].
Proof. vm_compute; reflexivity. Qed.

(** C2. Cleaning the cleaned example dataset changes it: the missing city
    of row 4 comes out as text.  On another frame the second cleaning also
    removes a row. *)
Theorem cleaning_twice_differs (lib : Library) :
  cleaned lib example_dataset = Ok example_cleaned
  /\ (exists twice, cleaned lib example_cleaned = Ok twice
        /\ twice !! 1%nat
           = Some ("city", ObjectS [PyStr "Cincinnati"; PyStr "Cincinnati";
                                    PyStr "Covington"; PyStr "<Na>"]))
  /\ cleaned lib [("city", ObjectS [PyStr "<Na>"; PyStr ""])]
     = Ok [("city", ObjectS [PyStr "<Na>"; PyNA])]
  /\ cleaned lib [("city", ObjectS [PyStr "<Na>"; PyNA])]
     = Ok [("city", ObjectS [PyStr "<Na>"])].
Proof.
  split; [vm_compute; reflexivity|]. split.
  - eexists. split; vm_compute; reflexivity.
  - split; vm_compute; reflexivity.
Qed.

(** C3. A latitude column that holds text makes [clean_data] raise: the text
    is compared with a number as it is. *)
Theorem text_latitude_raises (lib : Library) :
  cleaned lib [("Latitude", ObjectS [PyStr "39.10"; PyStr "unknown"])]
  = Raise TypeError
  /\ cleaned lib [("Longitude", ObjectS [PyStr "west"])] = Raise TypeError.
Proof. split; vm_compute; reflexivity. Qed.

(** * Further properties of the program *)

(** ** Labels *)

Section Labels.
Context (lib : Library).
Import PyStr PyStrFacts.

Lemma normal_char c :
  isupper (underscore (tolower c)) = false
  /\ underscore (tolower c) <> " "%char.
Proof.
  destruct c as [[] [] [] [] [] [] [] []];
    (split; [vm_compute; reflexivity|vm_compute; intros H; discriminate H]).
Qed.

Lemma normalize_column_chars c :
  chars (normalize_column c)
  = map (fun x => underscore (tolower x))
      (rstrip_chars (lstrip_chars (chars c))).
Proof.
  unfold normalize_column, replace_char, lower, strip.
  by rewrite !chars_text, map_map.
Qed.

Lemma normalize_column_normal c : normal_name (normalize_column c).
Proof.
  unfold normal_name. rewrite normalize_column_chars. split.
  - apply trimmed_map; [apply normal_char_space|apply strip_chars_trimmed].
  - apply List.Forall_map, Forall_forall. intros x _. apply normal_char.
Qed.

Lemma fixed_char c :
  isupper c = false -> c <> " "%char -> underscore (tolower c) = c.
Proof.
  destruct c as [[] [] [] [] [] [] [] []]; intros H1 H2;
    first [ reflexivity
          | vm_compute in H1; discriminate H1
          | exfalso; apply H2; reflexivity ].
Qed.

(** Normalisation leaves a label in normal form as it is. *)
Lemma normal_name_fixed n : normal_name n -> normalize_column n = n.
Proof.
  intros [Ht Hc]. rewrite <- (text_chars (normalize_column n)).
  rewrite normalize_column_chars, (strip_chars_fixed _ Ht).
  rewrite <- (text_chars n) at 2. f_equal.
  rewrite <- (map_id (chars n)) at 2. apply map_ext_Forall.
  eapply Forall_impl; [exact Hc|]. intros c [H1 H2]. by apply fixed_char.
Qed.

Lemma cleaned_columns df df' :
  cleaned lib df = Ok df' -> columns df' = normalize_column <$> columns df.
Proof.
  intros H. apply cleaned_normalized in H as (dfn & Hn & ->).
  transitivity (columns dfn).
  - unfold drop_duplicates, columns. rewrite <- list_fmap_compose.
    by apply list_fmap_ext.
  - rewrite (step_rel_columns _ _ _ (normalized_rel lib _ _ Hn)).
    rewrite standardize_columns_fmap.
    unfold columns. rewrite <- !list_fmap_compose. by apply list_fmap_ext.
Qed.

(** X4. Every label of the output of [clean_data] is in normal form: it has
    no white space at either end, no upper-case letter and no space. *)
Theorem cleaned_labels_normal df df' :
  cleaned lib df = Ok df' -> Forall normal_name (columns df').
Proof.
  intros H. rewrite (cleaned_columns _ _ H).
  apply Forall_fmap, Forall_forall. intros c _. apply normalize_column_normal.
Qed.

End Labels.

(** ** Dtypes of the known columns *)

Section Dtypes.
Context (lib : Library).

Lemma has_column_false_elem label (df : DataFrame) y :
  has_column label df = false -> (label, y) ∈ df -> False.
Proof.
  intros H Hin. apply bool_decide_eq_false in H. apply H.
  apply list_elem_of_fmap. by exists (label, y).
Qed.

Lemma is_datetime_select mask s :
  is_datetime (select_series mask s) = is_datetime s.
Proof. by destruct s. Qed.

Lemma is_numeric_select mask s :
  is_numeric (select_series mask s) = is_numeric s.
Proof. by destruct s. Qed.

Lemma to_datetime_is_datetime s : is_datetime (to_datetime lib s) = true.
Proof. by destruct s. Qed.

Lemma to_numeric_is_numeric s : is_numeric (to_numeric s) = true.
Proof. destruct s; simpl; try done. by destruct (mapM _ _). Qed.



End Dtypes.

(** ** Row counts *)

Section RowCounts.
Context (lib : Library).

Lemma step_rel_nrows P (df df' : DataFrame) :
  step_rel P df df' -> nrows df' = nrows df.
Proof. destruct 1 as [|[] [] ? ? (? & ? & ?)]; [done|]. simpl in *. done. Qed.

Lemma nrows_standardize (df : DataFrame) :
  nrows (standardize_columns df) = nrows df.
Proof. rewrite standardize_columns_fmap. by destruct df as [|[] ?]. Qed.

Lemma select_length_le {A} mask (l : list A) :
  (length (select mask l) <= length l)%nat.
Proof. apply sublist_length, select_sublist. Qed.

Lemma nrows_drop_duplicates (df : DataFrame) :
  (nrows (drop_duplicates df) <= nrows df)%nat.
Proof.
  unfold drop_duplicates. destruct df as [|[x y] df]; [done|].
  rewrite fmap_cons. cbn [nrows fst snd].
  rewrite <- !series_len_cells, cells_select. apply select_length_le.
Qed.

Lemma normalized_nrows df dfn :
  normalized lib df = Ok dfn -> nrows dfn = nrows df.
Proof.
  intros Hn. rewrite (step_rel_nrows _ _ _ (normalized_rel lib _ _ Hn)).
  apply nrows_standardize.
Qed.

(** X7. [clean_data] never adds a row: its output has at most as many rows
    as its input. *)
Theorem cleaning_never_adds_rows df df' :
  cleaned lib df = Ok df' -> (nrows df' <= nrows df)%nat.
Proof.
  intros H. apply cleaned_normalized in H as (dfn & Hn & ->).
  rewrite <- (normalized_nrows _ _ Hn). apply nrows_drop_duplicates.
Qed.

Lemma keep_first_all seen rs :
  (forall r, r ∈ rs -> occurs r seen = false) -> distinct_rows rs ->
  keep_first seen rs = replicate (length rs) true.
Proof.
  revert seen. induction rs as [|r0 rs IH]; intros seen Hs Hd; [done|].
  simpl. fold (occurs r0 seen). rewrite (Hs r0) by (by left). f_equal.
  apply IH.
  - intros r Hr. simpl. rewrite (Hs r) by (by right). rewrite orb_false_r.
    apply list_elem_of_lookup in Hr as [j Hj].
    rewrite row_eqb_sym. apply (Hd O (S j)); [lia|done..].
  - intros i j r1 r2 Hij Hi Hj. apply (Hd (S i) (S j)); [lia|done..].
Qed.

Lemma select_all {A} (l : list A) : select (replicate (length l) true) l = l.
Proof. induction l as [|x l IH]; [done|]. simpl. by rewrite IH. Qed.

Lemma drop_duplicates_distinct (df : DataFrame) :
  rectangular df -> distinct_rows (rows df) -> drop_duplicates df = df.
Proof.
  intros R Hd. unfold drop_duplicates, not_duplicated.
  rewrite (keep_first_all [] (rows df)); [|done|done].
  unfold rows at 1. rewrite length_fmap, length_seq.
  transitivity (id <$> df); [|apply list_fmap_id]. apply Forall_fmap_ext_1.
  eapply Forall_impl; [exact R|]. intros [x y] Hy. simpl in *. f_equal.
  rewrite <- Hy. destruct y; simpl; by rewrite select_all.
Qed.

Lemma normalized_rectangular df dfn :
  rectangular df -> normalized lib df = Ok dfn -> rectangular dfn.
Proof.
  intros R Hn. eapply step_rel_rectangular; [exact (normalized_rel lib _ _ Hn)|].
  by apply standardize_columns_rectangular.
Qed.

(** X8. When no two rows are the same once the columns are normalised,
    [clean_data] drops nothing: it returns the normalised frame, with every
    row of the input. *)
Theorem distinct_rows_all_kept df dfn :
  rectangular df -> normalized lib df = Ok dfn -> distinct_rows (rows dfn) ->
  cleaned lib df = Ok dfn /\ nrows dfn = nrows df.
Proof.
  intros R Hn Hd. split; [|by apply normalized_nrows].
  apply cleaned_normalized. exists dfn. split; [done|].
  symmetry. apply drop_duplicates_distinct; [|done].
  by eapply normalized_rectangular.
Qed.

End RowCounts.

(** ** Frames without a known column *)

Section Unknown.
Context (lib : Library).

Lemma has_column_standardize label df :
  has_column label (standardize_columns df)
  = bool_decide (label ∈ normalize_column <$> columns df).
Proof.
  unfold has_column. rewrite standardize_columns_fmap. unfold columns.
  by rewrite <- !list_fmap_compose.
Qed.

(** X9. For a frame none of whose normalised labels is crash_date, city,
    injuries, latitude or longitude, [clean_data] does not raise: it renames
    the columns and removes the duplicate rows, and that is all. *)
Theorem unknown_columns_only df :
  (forall name, name ∈ columns df -> normalize_column name ∉ five) ->
  cleaned lib df = Ok (drop_duplicates (standardize_columns df)).
Proof.
  intros H.
  assert (Hno : forall label, label ∈ five ->
                  has_column label (standardize_columns df) = false).
  { intros label Hl. rewrite has_column_standardize.
    apply bool_decide_eq_false. intros Hin.
    apply list_elem_of_fmap in Hin as (name & -> & Hname). by apply (H name). }
  unfold cleaned, parse_dates, standardize_city, convert_injuries, check_bounds.
  cbv zeta. rewrite (Hno "crash_date") by set_solver. cbn.
  rewrite (Hno "city") by set_solver. cbn.
  rewrite (Hno "injuries") by set_solver. cbn.
  rewrite (Hno "latitude") by set_solver. cbn.
  rewrite (Hno "longitude") by set_solver. done.
Qed.

End Unknown.

(** ** The city block, value by value *)

Section CityRule.
Context (lib : Library).

Lemma city_pipeline a a0 a3 xs :
  astype_str lib a = ObjectS (PyStr <$> xs) ->
  str_strip (astype_str lib a) = Ok a0 ->
  str_title (set_na lib (eq_scalar a0 "") a0) = Ok a3 ->
  a3 = city_of xs.
Proof.
  intros Hxs E1 E4. rewrite Hxs in E1. simpl in E1. inv_ok. simpl in E4.
  unfold putmask in E4. rewrite <- !list_fmap_compose in E4.
  rewrite zip_with_fmap_l, zip_with_fmap_r, zip_with_diag in E4.
  rewrite <- !list_fmap_compose in E4. inv_ok.
  unfold city_of. f_equal. apply list_fmap_ext. intros _ x _. simpl.
  by case_bool_decide.
Qed.

Lemma map_column_lookup label g (df : DataFrame) i x y :
  df !! i = Some (x, y) ->
  map_column label g df !! i
  = Some (x, if decide (x = label) then g y else y).
Proof.
  intros Hi. unfold map_column. rewrite list_lookup_fmap, Hi. simpl.
  by case_decide.
Qed.

Lemma step_rel_lookup label (df df' : DataFrame) i x y :
  step_rel (fun l => l = label) df df' -> x <> label ->
  df !! i = Some (x, y) -> df' !! i = Some (x, y).
Proof.
  intros H Hne Hi.
  destruct (Forall2_lookup_l _ _ _ _ _ H Hi) as ([x' y'] & Hi' & H1 & _ & H3).
  simpl in *. subst x'. by rewrite (H3 Hne) in Hi'.
Qed.

Lemma standardize_city_lookup df df' i s :
  standardize_city lib df = Ok df' -> df !! i = Some ("city", s) ->
  exists xs, astype_str lib s = ObjectS (PyStr <$> xs)
    /\ df' !! i = Some ("city", city_of xs).
Proof.
  unfold standardize_city. intros H Hi.
  pose proof (list_elem_of_lookup_2 _ _ _ Hi) as Hin. inv_ok.
  - rewrite (getitem_unique _ _ _ _ _ E0 Hin) in *.
    apply getitem_elem, setitem_elem in E2 as ->.
    apply getitem_elem, map_column_elem in E3 as (y0 & Hy0 & ->).
    apply setitem_elem in Hy0 as ->. rewrite decide_True in E4 by done.
    destruct (astype_str_text lib a) as [xs Hxs]. exists xs. split; [done|].
    rewrite (city_pipeline _ _ _ _ Hxs E1 E4).
    unfold setitem, loc_set_na.
    pose proof (map_column_lookup "city" (fun _ => a0) df i _ _ Hi) as L1.
    rewrite decide_True in L1 by done.
    pose proof (map_column_lookup "city" (set_na lib (eq_scalar a0 "")) _ i
                  _ _ L1) as L2.
    rewrite decide_True in L2 by done.
    rewrite (map_column_lookup "city" (fun _ => city_of xs) _ i _ _ L2).
    by rewrite decide_True.
  - by destruct (has_column_false_elem _ _ _ E Hin).
Qed.

(** X2. What the city block does to each value: the value is written as
    text ([str], also of a missing value), trimmed, and then made missing if
    nothing is left, title-cased otherwise.  The other steps do not touch the
    column. *)
Theorem city_block_rule df dfn i name s :
  normalized lib df = Ok dfn ->
  df !! i = Some (name, s) -> normalize_column name = "city" ->
  exists xs, astype_str lib s = ObjectS (PyStr <$> xs)
    /\ dfn !! i
       = Some ("city",
               ObjectS ((fun x => if bool_decide (PyStr.strip x = "") then PyNA
                                  else PyStr (PyStr.title (PyStr.strip x)))
                          <$> xs)).
Proof.
  intros Hn Hi Hname. unfold normalized in Hn. cbv zeta in Hn. inv_ok.
  assert (H0 : standardize_columns df !! i = Some ("city", s)).
  { rewrite standardize_columns_fmap, list_lookup_fmap, Hi. simpl.
    by rewrite Hname. }
  apply parse_dates_rel in E. apply convert_injuries_rel in E1.
  apply check_bounds_rel in E2, Hn.
  apply (step_rel_lookup _ _ _ _ _ _ E) in H0; [|done].
  destruct (standardize_city_lookup _ _ _ _ E0 H0) as (xs & Hxs & H1).
  exists xs. split; [done|].
  apply (step_rel_lookup _ _ _ _ _ _ E1) in H1; [|done].
  apply (step_rel_lookup _ _ _ _ _ _ E2) in H1; [|done].
  by apply (step_rel_lookup _ _ _ _ _ _ Hn) in H1.
Qed.

End CityRule.

(** ** Labels carried by two columns *)

Section Collisions.
Context (lib : Library).

Lemma getitem_raise e e' label (df : DataFrame) :
  getitem e label df = Raise e' -> e' = e.
Proof.
  unfold getitem. destruct (filter _ df) as [|[x y] [|? ?]]; congruence.
Qed.

Lemma getitem_twice e label (df : DataFrame) :
  carried_twice label (columns df) -> getitem e label df = Raise e.
Proof.
  intros (i & j & Hij & Hi & Hj). unfold columns in *.
  rewrite list_lookup_fmap in Hi, Hj.
  destruct (df !! i) as [[x1 y1]|] eqn:Ei; [|done].
  destruct (df !! j) as [[x2 y2]|] eqn:Ej; [|done].
  simpl in Hi, Hj. injection Hi as ->. injection Hj as ->.
  assert (Ej' : drop (S i) df !! (j - S i)%nat = Some (label, y2)).
  { rewrite lookup_drop. rewrite <- Ej. f_equal. lia. }
  rewrite <- (take_drop_middle _ _ _ Ei).
  rewrite <- (take_drop_middle _ _ _ Ej').
  unfold getitem. rewrite filter_app, filter_cons_True by done.
  rewrite filter_app, filter_cons_True by done.
  destruct (filter _ (take i df)) as [|[a b] [|? ?]]; simpl;
    try done; by destruct (filter _ (take _ (drop _ df))).
Qed.

Lemma carried_twice_has label (df : DataFrame) :
  carried_twice label (columns df) -> has_column label df = true.
Proof.
  intros (i & _ & _ & Hi & _). apply bool_decide_eq_true.
  by eapply list_elem_of_lookup_2.
Qed.

(** X10. A known label carried by two columns makes [clean_data] raise: two
    columns whose labels normalise to the same one of crash_date, city,
    injuries, latitude and longitude are not merged, and nothing is
    returned. *)
Theorem colliding_known_labels_raise df label :
  label ∈ five ->
  carried_twice label (normalize_column <$> columns df) ->
  exists e, cleaned lib df = Raise e.
Proof.
  intros Hl Ht.
  assert (H0 : carried_twice label (columns (standardize_columns df))).
  { rewrite standardize_columns_fmap. unfold columns in *.
    rewrite <- !list_fmap_compose in *.
    by rewrite (list_fmap_ext _ (normalize_column ∘ fst) df) by done. }
  unfold cleaned. cbv zeta.
  destruct (parse_dates lib _) as [d1|e] eqn:E1; [cbn|by eexists].
  destruct (standardize_city lib d1) as [d2|e] eqn:E2; [cbn|by eexists].
  destruct (convert_injuries d2) as [d3|e] eqn:E3; [cbn|by eexists].
  destruct (check_bounds lib "latitude" _ _ d3) as [d4|e] eqn:E4;
    [cbn|by eexists].
  destruct (check_bounds lib "longitude" _ _ d4) as [d5|e] eqn:E5;
    [cbn|by eexists].
  exfalso.
  pose proof (step_rel_columns _ _ _ (parse_dates_rel lib _ _ E1)) as C1.
  pose proof (step_rel_columns _ _ _ (standardize_city_rel lib _ _ E2)) as C2.
  pose proof (step_rel_columns _ _ _ (convert_injuries_rel _ _ E3)) as C3.
  pose proof (step_rel_columns _ _ _ (check_bounds_rel lib _ _ _ _ _ E4)) as C4.
  rewrite <- C1 in H0. pose proof H0 as H1. rewrite <- C2 in H0.
  pose proof H0 as H2. rewrite <- C3 in H0. pose proof H0 as H3.
  rewrite <- C4 in H0.
  rewrite C1 in H1.
  unfold five in Hl.
  repeat (apply elem_of_cons in Hl as [->|Hl]).
  - unfold parse_dates in E1.
    rewrite (carried_twice_has _ _ H1), (getitem_twice _ _ _ H1) in E1. done.
  - rewrite C2 in H2. unfold standardize_city in E2.
    rewrite (carried_twice_has _ _ H2), (getitem_twice _ _ _ H2) in E2. done.
  - rewrite C3 in H3. unfold convert_injuries in E3.
    rewrite (carried_twice_has _ _ H3), (getitem_twice _ _ _ H3) in E3. done.
  - rewrite C4 in H0. unfold check_bounds in E4.
    rewrite (carried_twice_has _ _ H0), (getitem_twice _ _ _ H0) in E4. done.
  - unfold check_bounds in E5.
    rewrite (carried_twice_has _ _ H0), (getitem_twice _ _ _ H0) in E5. done.
  - by apply elem_of_nil in Hl.
Qed.

End Collisions.

(** ** Coordinates that cannot be compared *)

Section TextCoordinates.
Context (lib : Library).

Lemma compare_scalar_raises cmpz cmpq s k :
  comparable s = false -> compare_scalar cmpz cmpq s k = Raise TypeError.
Proof.
  destruct s as [l|l|l|l]; simpl; try done. by intros ->.
Qed.

Lemma compare_scalar_outcome cmpz cmpq s k e :
  compare_scalar cmpz cmpq s k = Raise e -> e = TypeError.
Proof.
  destruct s as [l|l|l|l]; simpl; try done; [|congruence].
  destruct (forallb obj_isna l); congruence.
Qed.

Lemma check_bounds_text label lo hi (df : DataFrame) s :
  NoDup (columns df) -> (label, s) ∈ df -> comparable s = false ->
  check_bounds lib label lo hi df = Raise TypeError.
Proof.
  intros Hnd Hs Hc. unfold check_bounds.
  assert (E : has_column label df = true).
  { apply bool_decide_eq_true, list_elem_of_fmap. by exists (label, s). }
  rewrite E, (getitem_NoDup _ _ _ _ Hnd Hs). cbn.
  unfold lt_scalar. by rewrite compare_scalar_raises.
Qed.

Lemma check_bounds_outcome label lo hi (df : DataFrame) e :
  NoDup (columns df) -> check_bounds lib label lo hi df = Raise e ->
  e = TypeError.
Proof.
  intros Hnd. unfold check_bounds.
  destruct (has_column label df) eqn:E; [|done].
  destruct (has_column_elem _ _ E) as [s Hs].
  rewrite (getitem_NoDup _ _ _ _ Hnd Hs). cbn.
  unfold lt_scalar, gt_scalar.
  destruct (compare_scalar Z.ltb _ s lo) as [m1|e1] eqn:E1; cbn.
  - destruct (compare_scalar Z.gtb _ s hi) as [m2|e2] eqn:E2; cbn; [done|].
    intros [= <-]. by eapply compare_scalar_outcome.
  - intros [= <-]. by eapply compare_scalar_outcome.
Qed.

(** X17. With distinct labels, [clean_data] raises [TypeError] as soon as
    the latitude or the longitude column holds text or dates: a value that
    is not a number is not made missing, the comparison with the bound
    fails. *)
Theorem text_coordinates_raise df name s :
  NoDup (normalize_column <$> columns df) ->
  (name, s) ∈ df ->
  normalize_column name = "latitude" \/ normalize_column name = "longitude" ->
  comparable s = false ->
  cleaned lib df = Raise TypeError.
Proof.
  intros Hnd Hin Hname Hc. unfold cleaned. cbv zeta.
  assert (Hnd0 : NoDup (columns (standardize_columns df))).
  { rewrite standardize_columns_fmap. unfold columns in *.
    rewrite <- list_fmap_compose. rewrite <- list_fmap_compose in Hnd. done. }
  apply list_elem_of_lookup in Hin as [i Hi].
  assert (H0 : standardize_columns df !! i = Some (normalize_column name, s)).
  { by rewrite standardize_columns_fmap, list_lookup_fmap, Hi. }
  destruct (parse_dates_returns lib _ Hnd0) as [d1 E1]. rewrite E1. cbn.
  pose proof (parse_dates_rel _ _ _ E1) as R1.
  assert (Hnd1 : NoDup (columns d1)) by (by rewrite (step_rel_columns _ _ _ R1)).
  apply (step_rel_lookup _ _ _ _ _ _ R1) in H0;
    [|by destruct Hname as [-> | ->]].
  destruct (standardize_city_returns lib _ Hnd1) as [d2 E2]. rewrite E2. cbn.
  pose proof (standardize_city_rel _ _ _ E2) as R2.
  assert (Hnd2 : NoDup (columns d2)) by (by rewrite (step_rel_columns _ _ _ R2)).
  apply (step_rel_lookup _ _ _ _ _ _ R2) in H0;
    [|by destruct Hname as [-> | ->]].
  destruct (convert_injuries_returns _ Hnd2) as [d3 E3]. rewrite E3. cbn.
  pose proof (convert_injuries_rel _ _ E3) as R3.
  assert (Hnd3 : NoDup (columns d3)) by (by rewrite (step_rel_columns _ _ _ R3)).
  apply (step_rel_lookup _ _ _ _ _ _ R3) in H0;
    [|by destruct Hname as [-> | ->]].
  destruct Hname as [Hname|Hname]; rewrite Hname in H0.
  - rewrite (check_bounds_text "latitude" _ _ d3 s Hnd3); [done| |done].
    by eapply list_elem_of_lookup_2.
  - destruct (check_bounds lib "latitude" (-90) 90 d3) as [d4|e] eqn:E4; cbn.
    + pose proof (check_bounds_rel _ _ _ _ _ _ E4) as R4.
      apply (step_rel_lookup _ _ _ _ _ _ R4) in H0; [|done].
      rewrite (check_bounds_text "longitude" _ _ d4 s); [done| |by eapply list_elem_of_lookup_2|done].
      by rewrite (step_rel_columns _ _ _ R4).
    + by rewrite (check_bounds_outcome _ _ _ _ _ Hnd3 E4).
Qed.

End TextCoordinates.

(** ** The data dictionary and the labels *)

Section DictionaryLabels.

Lemma append_entries_inv (df : DataFrame) cols lines out :
  append_entries df cols lines = Ok out ->
  forall col, col ∈ cols -> exists s, getitem AttributeError col df = Ok s.
Proof.
  revert lines. induction cols as [|c cols IH]; intros lines H col Hcol.
  { by apply elem_of_nil in Hcol. }
  cbn [append_entries] in H.
  destruct (getitem AttributeError c df) as [s|e] eqn:E; [|done]. cbn in H.
  apply elem_of_cons in Hcol as [->|Hcol]; [by exists s|]. by eapply IH.
Qed.

Lemma append_entries_raise (df : DataFrame) cols lines e :
  append_entries df cols lines = Raise e -> e = AttributeError.
Proof.
  revert lines. induction cols as [|c cols IH]; intros lines H; [done|].
  cbn [append_entries] in H.
  destruct (getitem AttributeError c df) as [s|e'] eqn:E; cbn in H.
  - by eapply IH.
  - apply getitem_raise in E. congruence.
Qed.

Lemma getitem_all_NoDup e (df : DataFrame) :
  (forall col, col ∈ columns df -> exists s, getitem e col df = Ok s) ->
  NoDup (columns df).
Proof.
  unfold columns. induction df as [|[x y] df IH]; intros H; [constructor|].
  rewrite fmap_cons. cbn [fst].
  assert (Hx : x ∉ df.*1).
  { intros Hin. destruct (H x) as [s Hs]; [by left|].
    apply list_elem_of_lookup in Hin as [j Hj].
    rewrite (getitem_twice e x ((x, y) :: df)) in Hs; [done|].
    exists O, (S j). split; [lia|]. by split. }
  constructor; [done|]. apply IH. intros col Hcol.
  destruct (H col) as [s Hs]; [by right|]. exists s.
  unfold getitem in *. rewrite filter_cons_False in Hs; [done|].
  simpl. intros ->. done.
Qed.

Lemma write_data_dictionary_returns (df : DataFrame) :
  NoDup (columns df) -> exists lines, write_data_dictionary df = Ok lines.
Proof.
  intros Hnd. eexists. unfold write_data_dictionary, columns.
  apply append_entries_ok. intros [x y] Hc. by apply getitem_NoDup.
Qed.

Lemma write_data_dictionary_distinct (df : DataFrame) lines :
  write_data_dictionary df = Ok lines -> NoDup (columns df).
Proof.
  intros H. apply (getitem_all_NoDup AttributeError).
  by apply (append_entries_inv _ _ _ _ H).
Qed.

Lemma write_data_dictionary_raises (df : DataFrame) :
  ~ NoDup (columns df) -> write_data_dictionary df = Raise AttributeError.
Proof.
  intros Hnd. destruct (write_data_dictionary df) as [lines|e] eqn:E.
  - destruct Hnd. by eapply write_data_dictionary_distinct.
  - by rewrite (append_entries_raise _ _ _ _ E).
Qed.

(** X11. [write_data_dictionary] needs distinct labels: it returns exactly
    when no two columns carry the same label, and raises [AttributeError]
    otherwise, whatever the columns hold. *)
Theorem dictionary_needs_distinct_labels (df : DataFrame) :
  (NoDup (columns df) <-> exists lines, write_data_dictionary df = Ok lines)
  /\ (~ NoDup (columns df) <-> write_data_dictionary df = Raise AttributeError).
Proof.
  split; split.
  - apply write_data_dictionary_returns.
  - intros [lines H]. by eapply write_data_dictionary_distinct.
  - apply write_data_dictionary_raises.
  - intros H Hnd.
    destruct (write_data_dictionary_returns _ Hnd) as [lines Hl]. congruence.
Qed.

End DictionaryLabels.

(** ** The script *)

Section ScriptRuns.
Context (lib : Library).
Context (read_csv : string -> result DataFrame) (to_csv : DataFrame -> string).

Lemma load_data_run w :
  match loaded read_csv (files w) with
  | Ok raw =>
      Script.load_data read_csv w
      = (Ok (fresh (dom (heap w))),
         {| heap := <[fresh (dom (heap w)) := raw]> (heap w);
            files := files w; console := console w |})
  | Raise e => Script.load_data read_csv w = (Raise e, w)
  end.
Proof.
  unfold loaded, Script.load_data, mbind, IO_bind, Sys.path_exists,
    Sys.read_text, Sys.lift, Sys.on_heap, Obj.alloc, load_data.
  destruct (files w !! RAW_FILE) as [text|] eqn:E.
  - rewrite bool_decide_eq_true_2 by eauto.
    rewrite E. by destruct (read_csv text).
  - rewrite bool_decide_eq_false_2; [done|]. by intros [? ?].
Qed.

Lemma IO_bind_run {A B} (m : IO A) (k : A -> IO B) w r w' :
  m w = (r, w') ->
  (m ≫= k) w = match r with Ok a => k a w' | Raise e => (Raise e, w') end.
Proof. intros H. unfold mbind, IO_bind. by rewrite H. Qed.

Lemma read_run w l d :
  heap w !! l = Some d -> Sys.on_heap (Obj.read l) w = (Ok d, w).
Proof.
  intros H. unfold Sys.on_heap, Obj.read. rewrite H. by destruct w.
Qed.

Lemma len_run w l d :
  heap w !! l = Some d -> Script.len l w = (Ok (nrows d), w).
Proof.
  intros H. unfold Script.len. by rewrite (IO_bind_run _ _ _ _ _ (read_run _ _ _ H)).
Qed.

Lemma write_data_dictionary_run w l d :
  heap w !! l = Some d ->
  Script.write_data_dictionary l w
  = match write_data_dictionary d with
    | Ok lines =>
        (Ok tt, {| heap := heap w;
                   files := <[DOC_FILE := String.concat "" lines]> (files w);
                   console := console w |})
    | Raise e => (Raise e, w)
    end.
Proof.
  intros H. unfold Script.write_data_dictionary.
  rewrite (IO_bind_run _ _ _ _ _ (read_run _ _ _ H)).
  unfold mbind, IO_bind, Sys.lift, Sys.write_text.
  by destruct (write_data_dictionary d).
Qed.

Lemma main_run w :
  exists σ',
    extends (heap w) σ'
    /\ Script.main lib read_csv to_csv w
       = let '(r, fs, out) :=
           main_outcome lib read_csv to_csv (files w) (console w) in
         (r, {| heap := σ'; files := fs; console := out |}).
Proof.
  pose proof (load_data_run w) as Hload.
  unfold main_outcome, Script.main.
  destruct (loaded read_csv (files w)) as [raw|e];
    rewrite (IO_bind_run _ _ _ _ _ Hload).
  2:{ exists (heap w). split; [by intros ? ?|by destruct w]. }
  set (l := fresh (dom (heap w))) in *.
  set (σ1 := <[l := raw]> (heap w)).
  assert (H1 : owns (heap w) l raw σ1).
  { apply (extends_alloc (heap w) (heap w) raw). by intros ? ?. }
  pose proof (clean_data_wp lib σ1 l raw (proj2 (proj2 H1))) as Hc.
  unfold wp, clean_data_post in Hc.
  unfold mbind at 1. unfold IO_bind at 1. unfold Sys.on_heap at 1.
  cbn [heap files console].
  destruct (clean_data lib l σ1) as [[l'|e] σ2]; cbn [fst snd] in Hc;
    destruct Hc as [He Hc].
  2:{ rewrite Hc. exists σ2. split; [|done].
      intros l0 d0 H0. by apply He, (owns_extends _ _ _ _ H1). }
  destruct Hc as (Hnew & clean & Hclean & Hl'). rewrite Hclean.
  assert (Hl : σ2 !! l = Some raw) by apply He, H1.
  exists σ2. split.
  { intros l0 d0 H0. by apply He, (owns_extends _ _ _ _ H1). }
  set (w2 := {| heap := σ2; files := files w; console := console w |}).
  rewrite (IO_bind_run _ _ w2 _ _ (read_run w2 l' clean Hl')).
  set (w3 := {| heap := σ2; files := <[CLEAN_FILE := to_csv clean]> (files w);
                console := console w |}).
  rewrite (IO_bind_run (Sys.write_text CLEAN_FILE (to_csv clean)) _ w2
             (Ok tt) w3 eq_refl).
  pose proof (write_data_dictionary_run w3 l' clean Hl') as Hd.
  destruct (write_data_dictionary clean) as [lines|e];
    rewrite (IO_bind_run _ _ w3 _ _ Hd); [|done].
  cbn [heap files console].
  unfold mbind at 1. unfold IO_bind at 1. unfold Sys.print at 1.
  cbn [heap files console].
  match goal with
  | |- (_ ≫= _) ?w5 = _ =>
      rewrite (IO_bind_run _ _ w5 _ _ (len_run w5 l raw Hl))
  end.
  unfold mbind at 1. unfold IO_bind at 1. unfold Sys.print at 1.
  cbn [heap files console].
  match goal with
  | |- (_ ≫= _) ?w5 = _ =>
      rewrite (IO_bind_run _ _ w5 _ _ (len_run w5 l' clean Hl'))
  end.
  unfold mbind at 1. unfold IO_bind at 1. unfold Sys.print.
  cbn [heap files console]. unfold report.
  by rewrite <- !app_assoc.
Qed.

Local Abbreviation run := (Script.main lib read_csv to_csv).






End ScriptRuns.

(** ** Cleaning a cleaned frame *)

Section Twice.
Context (lib : Library).
Import PyStr PyStrFacts.

(** *** Columns that the blocks leave as they are *)

Lemma lower_fixed c : islower c = true -> tolower c = c.
Proof.
  destruct c as [[] [] [] [] [] [] [] []]; intros H;
    first [vm_compute; reflexivity | vm_compute in H; discriminate H].
Qed.

Lemma upper_fixed c : isupper c = true -> toupper c = c.
Proof.
  destruct c as [[] [] [] [] [] [] [] []]; intros H;
    first [vm_compute; reflexivity | vm_compute in H; discriminate H].
Qed.

Lemma title_chars_fixed b l :
  title_cased_from b l = true -> title_chars b l = l.
Proof.
  revert b. induction l as [|c l IH]; intros b H; [done|].
  cbn [title_cased_from title_chars] in *.
  destruct (iscased c).
  - apply andb_true_iff in H as [H1 H2]. rewrite (IH _ H2). f_equal.
    destruct b; [by apply lower_fixed|by apply upper_fixed].
  - by rewrite (IH _ H).
Qed.

Lemma clean_text_fixed x : clean_text x -> strip x = x /\ title x = x.
Proof.
  intros (_ & Ht & Hc). unfold strip, title.
  rewrite (strip_chars_fixed _ Ht), (title_chars_fixed _ _ Hc).
  by rewrite text_chars.
Qed.

Lemma putmask_false {A} (v : A) (l : list A) :
  putmask ((fun _ => false) <$> l) v l = l.
Proof.
  unfold putmask. rewrite zip_with_fmap_l, zip_with_diag. apply list_fmap_id.
Qed.

Lemma mask_or_false {A} (l : list A) :
  mask_or ((fun _ => false) <$> l) ((fun _ => false) <$> l)
  = (fun _ => false) <$> l.
Proof.
  unfold mask_or. rewrite zip_with_fmap_l, zip_with_fmap_r, zip_with_diag.
  done.
Qed.

Lemma existsb_false {A} (l : list A) :
  existsb id ((fun _ => false) <$> l) = false.
Proof. induction l as [|x l IH]; [done|]. by rewrite fmap_cons. Qed.

Lemma Qlt_bool_le x y : (y <= x)%Q -> Qlt_bool x y = false.
Proof.
  intros H. unfold Qlt_bool. apply negb_false_iff. by apply Qle_bool_iff.
Qed.

Lemma city_text_fixed xs :
  Forall clean_text xs ->
  let s := ObjectS (PyStr <$> xs) in
  astype_str lib s = s /\ str_strip s = Ok s
  /\ set_na lib (eq_scalar s "") s = s /\ str_title s = Ok s.
Proof.
  intros H. cbn zeta. unfold str_strip, str_title, str_map, astype_str,
    eq_scalar, set_na.
  rewrite <- !list_fmap_compose.
  split; [done|]. split; [|split].
  - do 2 f_equal. apply Forall_fmap_ext_1. eapply Forall_impl; [exact H|].
    intros x Hx. simpl. f_equal. by apply clean_text_fixed.
  - f_equal.
    rewrite (Forall_fmap_ext_1 _ (fun _ => false) xs).
    2:{ eapply Forall_impl; [exact H|]. intros x (Hx & _). simpl.
        by apply bool_decide_eq_false. }
    rewrite <- (putmask_false PyNA (PyStr <$> xs)) at 2.
    by rewrite <- list_fmap_compose.
  - do 2 f_equal. apply Forall_fmap_ext_1. eapply Forall_impl; [exact H|].
    intros x Hx. simpl. f_equal. by apply clean_text_fixed.
Qed.

Lemma settled_checked lo hi s :
  settled lib lo hi s ->
  exists below above,
    lt_scalar s lo = Ok below /\ gt_scalar s hi = Ok above
    /\ set_na lib (mask_or below above) s = s.
Proof.
  destruct s as [l|l|l|l]; cbn [settled]; intros H; [| | |done].
  - exists ((fun _ => false) <$> l), ((fun _ => false) <$> l).
    unfold lt_scalar, gt_scalar, compare_scalar. rewrite H.
    split; [done|]. split; [done|].
    rewrite mask_or_false. unfold set_na. by rewrite putmask_false.
  - eexists _, _. split; [done|]. split; [done|].
    destruct H as [->|[Hu H]]; [done|].
    destruct l as [|z l]; [done|]. unfold set_na. rewrite Hu.
    rewrite (Forall_fmap_ext_1 (fun z0 => z0 <? lo) (fun _ => false) (z :: l)).
    2:{ eapply Forall_impl; [exact H|]. intros x Hx. simpl in *.
        apply Z.ltb_ge. lia. }
    rewrite (Forall_fmap_ext_1 (fun z0 => z0 >? hi) (fun _ => false) (z :: l)).
    2:{ eapply Forall_impl; [exact H|]. intros x Hx. simpl in *.
        rewrite Z.gtb_ltb. apply Z.ltb_ge. lia. }
    by rewrite mask_or_false, existsb_false.
  - eexists _, _. split; [done|]. split; [done|].
    rewrite (Forall_fmap_ext_1
               (fun o => match o with
                         | Some q => Qlt_bool q (inject_Z lo)
                         | None => false
                         end) (fun _ => false) l).
    2:{ eapply Forall_impl; [exact H|]. intros [q|] Hq; [|done].
        apply Qlt_bool_le, Hq. }
    rewrite (Forall_fmap_ext_1
               (fun o => match o with
                         | Some q => Qlt_bool (inject_Z hi) q
                         | None => false
                         end) (fun _ => false) l).
    2:{ eapply Forall_impl; [exact H|]. intros [q|] Hq; [|done].
        apply Qlt_bool_le, Hq. }
    rewrite mask_or_false. unfold set_na. by rewrite putmask_false.
Qed.

Lemma Forall_select {A} (P : A -> Prop) mask (l : list A) :
  Forall P l -> Forall P (select mask l).
Proof.
  rewrite !Forall_forall. intros H x Hx. apply H.
  eapply elem_of_sublist; [done|apply select_sublist].
Qed.

Lemma settled_select lo hi mask s :
  settled lib lo hi s -> settled lib lo hi (select_series mask s).
Proof.
  destruct s as [l|l|l|l]; cbn [settled select_series]; [| | |done].
  - intros H. apply forallb_forall. intros o Ho. apply list_elem_of_In in Ho.
    eapply forallb_elem; [exact H|].
    eapply elem_of_sublist; [done|apply select_sublist].
  - intros [->|[Hu H]]; [left; by destruct mask|].
    right. split; [done|]. by apply Forall_select.
  - apply Forall_select.
Qed.

Lemma checked_settled lo hi s s' :
  checked lib lo hi s s' -> settled lib lo hi s'.
Proof.
  intros H. pose proof (checked_in_range lib _ _ _ _ H) as Hr.
  destruct H as (below & above & Hb & Ha & ->). unfold in_range in Hr.
  destruct s as [l|l|l|l]; simpl in Hb; try discriminate.
  - cbn [set_na settled] in *. apply forallb_forall. intros o Ho.
    apply list_elem_of_In in Ho. rewrite Forall_forall in Hr.
    pose proof (Hr (cell_of_obj o)) as Ho'. cbn [cells] in Ho'.
    destruct o; try done. exfalso. apply Ho'.
    apply list_elem_of_fmap. by eexists.
  - destruct l as [|z l]; [by left|]. unfold set_na in *.
    destruct (existsb id (mask_or below above) || upcast_unmatched lib)
      eqn:E; cbn [settled cells] in *.
    + rewrite Forall_fmap in Hr. eapply Forall_impl; [exact Hr|].
      by intros [q|].
    + right. apply orb_false_iff in E as [_ E]. split; [done|].
      rewrite Forall_fmap in Hr. eapply Forall_impl; [exact Hr|]. done.
  - cbn [set_na settled cells] in *.
    rewrite Forall_fmap in Hr. eapply Forall_impl; [exact Hr|]. by intros [q|].
Qed.

(** *** Blocks that leave the frame as it is *)

Lemma map_column_fixed label g (df : DataFrame) :
  (forall s, (label, s) ∈ df -> g s = s) -> map_column label g df = df.
Proof.
  intros H. unfold map_column. transitivity (id <$> df); [|apply list_fmap_id].
  apply Forall_fmap_ext_1, Forall_forall. intros [x y] Hin. simpl.
  case_decide; [|done]. subst. by rewrite (H y).
Qed.

Lemma setitem_fixed e label (df : DataFrame) s :
  getitem e label df = Ok s -> setitem label s df = df.
Proof.
  intros H. apply map_column_fixed. intros s' Hs'.
  symmetry. by eapply getitem_unique.
Qed.

Lemma loc_set_na_fixed e mask label (df : DataFrame) s :
  getitem e label df = Ok s -> set_na lib mask s = s ->
  loc_set_na lib mask label df = df.
Proof.
  intros H Hs. apply map_column_fixed. intros s' Hs'.
  by rewrite (getitem_unique _ _ _ _ _ H Hs').
Qed.

Lemma parse_dates_fixed (df : DataFrame) :
  (has_column "crash_date" df = true ->
   exists s, getitem ValueError "crash_date" df = Ok s
             /\ is_datetime s = true) ->
  parse_dates lib df = Ok df.
Proof.
  intros H. unfold parse_dates. destruct (has_column _ df); [|done].
  destruct H as (s & Hs & Hd); [done|]. rewrite Hs. cbn. f_equal.
  destruct s; try done. by eapply setitem_fixed.
Qed.

Lemma convert_injuries_fixed (df : DataFrame) :
  (has_column "injuries" df = true ->
   exists s, getitem TypeError "injuries" df = Ok s /\ is_numeric s = true) ->
  convert_injuries df = Ok df.
Proof.
  intros H. unfold convert_injuries. destruct (has_column _ df); [|done].
  destruct H as (s & Hs & Hd); [done|]. rewrite Hs. cbn. f_equal.
  destruct s; try done; by eapply setitem_fixed.
Qed.

Lemma standardize_city_fixed (df : DataFrame) :
  (has_column "city" df = true ->
   exists xs, getitem AttributeError "city" df = Ok (ObjectS (PyStr <$> xs))
              /\ Forall clean_text xs) ->
  standardize_city lib df = Ok df.
Proof.
  intros H. unfold standardize_city. destruct (has_column _ df); [|done].
  destruct H as (xs & Hs & Hx); [done|].
  destruct (city_text_fixed xs Hx) as (H1 & H2 & H3 & H4). cbn zeta in *.
  rewrite Hs, bind_ok, H1, H2, bind_ok.
  rewrite (setitem_fixed _ _ _ _ Hs), Hs, bind_ok.
  rewrite (loc_set_na_fixed _ _ _ _ _ Hs H3), Hs, bind_ok, H4, bind_ok.
  by rewrite (setitem_fixed _ _ _ _ Hs).
Qed.

Lemma check_bounds_fixed label lo hi (df : DataFrame) :
  (has_column label df = true ->
   exists s, getitem ValueError label df = Ok s /\ settled lib lo hi s) ->
  check_bounds lib label lo hi df = Ok df.
Proof.
  intros H. unfold check_bounds. destruct (has_column _ df); [|done].
  destruct H as (s & Hs & Hd); [done|].
  destruct (settled_checked _ _ _ Hd) as (below & above & Hb & Ha & Hna).
  rewrite Hs, bind_ok, Hb, bind_ok, bind_ok, Ha, bind_ok.
  by rewrite (loc_set_na_fixed _ _ _ _ _ Hs Hna).
Qed.

(** *** The columns of the normalised frame *)

Lemma filter_label_length label (df : DataFrame) :
  length (filter (fun c : string * Series => c.1 = label) df)
  = length (filter (fun x => x = label) (columns df)).
Proof.
  unfold columns. induction df as [|[x y] df IH]; [done|].
  rewrite fmap_cons. cbn [fst]. destruct (decide (x = label)).
  - rewrite !filter_cons_True by done. cbn [length]. by rewrite IH.
  - by rewrite !filter_cons_False by done.
Qed.

Lemma getitem_same_labels e e' label (df df' : DataFrame) s :
  getitem e label df = Ok s -> columns df' = columns df ->
  exists s', getitem e' label df' = Ok s'.
Proof.
  unfold getitem. intros H Hc.
  pose proof (filter_label_length label df) as L.
  pose proof (filter_label_length label df') as L'.
  rewrite Hc, <- L in L'.
  destruct (filter _ df) as [|[x y] [|? ?]]; try done.
  destruct (filter _ df') as [|[x' y'] [|? ?]]; try done. by eexists.
Qed.

Lemma has_column_same label (df df' : DataFrame) :
  columns df' = columns df -> has_column label df' = has_column label df.
Proof. unfold has_column. by intros ->. Qed.

Lemma normalized_getitem e df dfn label :
  normalized lib df = Ok dfn -> label ∈ five ->
  has_column label dfn = true -> exists s, getitem e label dfn = Ok s.
Proof.
  unfold normalized. cbv zeta. intros Hn Hl Hh. inv_ok.
  pose proof (step_rel_columns _ _ _ (parse_dates_rel lib _ _ E)) as C1.
  pose proof (step_rel_columns _ _ _ (standardize_city_rel lib _ _ E0)) as C2.
  pose proof (step_rel_columns _ _ _ (convert_injuries_rel _ _ E1)) as C3.
  pose proof (step_rel_columns _ _ _ (check_bounds_rel lib _ _ _ _ _ E2)) as C4.
  pose proof (step_rel_columns _ _ _ (check_bounds_rel lib _ _ _ _ _ Hn)) as C5.
  unfold five in Hl. repeat (apply elem_of_cons in Hl as [->|Hl]).
  - unfold parse_dates in E.
    rewrite <- (has_column_same "crash_date" (standardize_columns df) dfn), Hh
      in E by congruence.
    destruct (getitem ValueError _ _) as [s|] eqn:G;
      [|cbn in E; discriminate E].
    apply (getitem_same_labels _ e _ _ dfn _ G). congruence.
  - unfold standardize_city in E0.
    rewrite <- (has_column_same "city" a dfn), Hh in E0 by congruence.
    destruct (getitem AttributeError "city" a) as [s|] eqn:G;
      [|cbn in E0; discriminate E0].
    apply (getitem_same_labels _ e _ _ dfn _ G). congruence.
  - unfold convert_injuries in E1.
    rewrite <- (has_column_same "injuries" a0 dfn), Hh in E1 by congruence.
    destruct (getitem TypeError "injuries" a0) as [s|] eqn:G;
      [|cbn in E1; discriminate E1].
    apply (getitem_same_labels _ e _ _ dfn _ G). congruence.
  - unfold check_bounds in E2.
    rewrite <- (has_column_same "latitude" a1 dfn), Hh in E2 by congruence.
    destruct (getitem ValueError "latitude" a1) as [s|] eqn:G;
      [|cbn in E2; discriminate E2].
    apply (getitem_same_labels _ e _ _ dfn _ G). congruence.
  - unfold check_bounds in Hn.
    rewrite <- (has_column_same "longitude" a2 dfn), Hh in Hn by congruence.
    destruct (getitem ValueError "longitude" a2) as [s|] eqn:G;
      [|cbn in Hn; discriminate Hn].
    apply (getitem_same_labels _ e _ _ dfn _ G). congruence.
  - by apply elem_of_nil in Hl.
Qed.

Lemma normalized_columns df dfn :
  normalized lib df = Ok dfn ->
  (forall s, ("crash_date", s) ∈ dfn -> is_datetime s = true)
  /\ (forall s, ("city", s) ∈ dfn -> exists xs, s = city_of xs)
  /\ (forall s, ("injuries", s) ∈ dfn -> is_numeric s = true)
  /\ (forall s, ("latitude", s) ∈ dfn -> settled lib (-90) 90 s)
  /\ (forall s, ("longitude", s) ∈ dfn -> settled lib (-180) 180 s).
Proof.
  unfold normalized. cbv zeta. intros Hn. inv_ok.
  pose proof (standardize_city_rel lib _ _ E0) as R2.
  pose proof (convert_injuries_rel _ _ E1) as R3.
  pose proof (check_bounds_rel lib _ _ _ _ _ E2) as R4.
  pose proof (check_bounds_rel lib _ _ _ _ _ Hn) as R5.
  repeat split; intros s Hs.
  - apply (step_rel_other _ _ _ _ _ R5) in Hs; [|done].
    apply (step_rel_other _ _ _ _ _ R4) in Hs; [|done].
    apply (step_rel_other _ _ _ _ _ R3) in Hs; [|done].
    apply (step_rel_other _ _ _ _ _ R2) in Hs; [|done].
    unfold parse_dates in E. inv_ok.
    + apply setitem_elem in Hs as ->. apply to_datetime_is_datetime.
    + by destruct (has_column_false_elem _ _ _ E3 Hs).
  - apply (step_rel_other _ _ _ _ _ R5) in Hs; [|done].
    apply (step_rel_other _ _ _ _ _ R4) in Hs; [|done].
    apply (step_rel_other _ _ _ _ _ R3) in Hs; [|done].
    by apply (standardize_city_text lib _ _ _ E0).
  - apply (step_rel_other _ _ _ _ _ R5) in Hs; [|done].
    apply (step_rel_other _ _ _ _ _ R4) in Hs; [|done].
    unfold convert_injuries in E1. inv_ok.
    + apply setitem_elem in Hs as ->. apply to_numeric_is_numeric.
    + by destruct (has_column_false_elem _ _ _ E3 Hs).
  - apply (step_rel_other _ _ _ _ _ R5) in Hs; [|done].
    destruct (check_bounds_checked lib _ _ _ _ _ _ E2 Hs) as (s0 & _ & Hc).
    by eapply checked_settled.
  - destruct (check_bounds_checked lib _ _ _ _ _ _ Hn Hs) as (s0 & _ & Hc).
    by eapply checked_settled.
Qed.

Lemma texts_of (l : list pyobj) :
  Forall clean_city (cell_of_obj <$> l) ->
  Forall (fun c => is_missing c = false) (cell_of_obj <$> l) ->
  exists xs, l = PyStr <$> xs /\ Forall clean_text xs.
Proof.
  induction l as [|o l IH]; intros Hc Hm.
  { by exists []. }
  rewrite fmap_cons in Hc, Hm.
  apply Forall_cons in Hc as [Hc1 Hc]. apply Forall_cons in Hm as [Hm1 Hm].
  destruct (IH Hc Hm) as (xs & -> & Hx).
  destruct o as [| | |x]; try done.
  exists (x :: xs). split; [done|]. by constructor.
Qed.

Lemma not_duplicated_length df :
  length (not_duplicated df) = nrows df.
Proof.
  unfold not_duplicated.
  assert (Hl : forall seen rs, length (keep_first seen rs) = length rs).
  { intros seen rs. revert seen. induction rs as [|r rs IH]; intros seen;
      [done|]. simpl. destruct (existsb _ _); simpl; by rewrite IH. }
  rewrite Hl. unfold rows. by rewrite length_fmap, length_seq.
Qed.

Lemma series_len_select mask s :
  length mask = series_len s ->
  series_len (select_series mask s) = count_true mask.
Proof.
  intros H. rewrite <- series_len_cells, cells_select. apply select_length.
  by rewrite series_len_cells.
Qed.

Lemma drop_duplicates_rectangular df :
  rectangular df -> rectangular (drop_duplicates df).
Proof.
  intros R. unfold rectangular.
  assert (Hn : nrows (drop_duplicates df) = count_true (not_duplicated df)
               \/ df = []).
  { destruct df as [|[x y] df]; [by right|]. left.
    unfold drop_duplicates. rewrite fmap_cons. cbn [nrows fst snd].
    apply series_len_select. by rewrite not_duplicated_length. }
  destruct Hn as [Hn| ->]; [|constructor].
  rewrite Hn. unfold drop_duplicates. apply Forall_fmap.
  eapply Forall_impl; [exact R|]. intros [x y] Hy. simpl in *.
  apply series_len_select. by rewrite not_duplicated_length.
Qed.

Lemma drop_duplicates_columns df :
  columns (drop_duplicates df) = columns df.
Proof.
  unfold drop_duplicates, columns. rewrite <- list_fmap_compose.
  by apply list_fmap_ext.
Qed.


End Twice.

(** ** The further properties on concrete frames *)


Lemma city_block_rule_witness :
  exists dfn,
    normalized plain_library roads = Ok dfn
    /\ roads !! 0%nat
       = Some ("City", text_column [Some "Dayton"; Some " dayton "; Some "Oxford"])
    /\ normalize_column "City" = "city"
    /\ exists xs,
         astype_str plain_library
           (text_column [Some "Dayton"; Some " dayton "; Some "Oxford"])
         = ObjectS (PyStr <$> xs)
         /\ dfn !! 0%nat = Some ("city", city_of xs).
Proof.
  pose (dfn := match normalized plain_library roads with
               | Ok d => d
               | Raise _ => []
               end).
  assert (Hn : normalized plain_library roads = Ok dfn)
    by (vm_compute; reflexivity).
  assert (Hi : roads !! 0%nat
               = Some ("City", text_column [Some "Dayton"; Some " dayton ";
                                            Some "Oxford"])) by reflexivity.
  assert (Hname : normalize_column "City" = "city")
    by (vm_compute; reflexivity).
  exists dfn. split; [exact Hn|]. split; [exact Hi|]. split; [exact Hname|].
  exact (city_block_rule plain_library roads dfn 0 "City" _ Hn Hi Hname).
Defined.

Lemma cleaned_returns_witness :
  NoDup (normalize_column <$> columns roads)
  /\ exists df', cleaned plain_library roads = Ok df'.
Proof.
  assert (Hnd : NoDup (normalize_column <$> columns roads)).
  { apply (bool_decide_unpack _). vm_compute. exact I. }
  split; [exact Hnd|].
  apply (cleaned_returns plain_library roads Hnd).
  intros name s Hin Hl. unfold roads in Hin.
  repeat (apply elem_of_cons in Hin as [[= -> ->]|Hin]);
    try (by destruct Hl as [Hl|Hl]; vm_compute in Hl); try done.
  by apply elem_of_nil in Hin.
Defined.

Lemma cleaned_labels_normal_witness :
  cleaned plain_library roads = Ok roads_cleaned
  /\ Forall normal_name ["city"; "road_name"; "latitude"].
Proof.
  assert (H : cleaned plain_library roads = Ok roads_cleaned)
    by (vm_compute; reflexivity).
  split; [exact H|].
  exact (cleaned_labels_normal plain_library roads roads_cleaned H).
Defined.



Lemma cleaning_never_adds_rows_witness :
  cleaned plain_library roads = Ok roads_cleaned
  /\ (nrows roads_cleaned <= nrows roads)%nat.
Proof.
  assert (H : cleaned plain_library roads = Ok roads_cleaned)
    by (vm_compute; reflexivity).
  split; [exact H|].
  exact (cleaning_never_adds_rows plain_library roads roads_cleaned H).
Defined.

Lemma distinct_rows_all_kept_witness :
  exists dfn,
    rectangular counted
    /\ normalized plain_library counted = Ok dfn
    /\ distinct_rows (rows dfn)
    /\ cleaned plain_library counted = Ok dfn /\ nrows dfn = nrows counted.
Proof.
  pose (dfn := [ ("road_name", ObjectS [PyStr "I-75"; PyStr "US 27"]);
                 ("lanes", Int64S [4; 2]) ] : DataFrame).
  assert (R : rectangular counted) by (repeat constructor).
  assert (Hn : normalized plain_library counted = Ok dfn)
    by (vm_compute; reflexivity).
  assert (Hd : distinct_rows (rows dfn)).
  { intros i j r1 r2 Hij Hi Hj.
    destruct i as [|[|i]]; destruct j as [|[|j]]; try lia;
      try discriminate Hi; try discriminate Hj.
    injection Hi as <-. injection Hj as <-. reflexivity. }
  exists dfn. split; [exact R|]. split; [exact Hn|]. split; [exact Hd|].
  exact (distinct_rows_all_kept plain_library counted dfn R Hn Hd).
Defined.

Lemma unknown_columns_only_witness :
  (forall name, name ∈ columns counted -> normalize_column name ∉ five)
  /\ cleaned plain_library counted
     = Ok (drop_duplicates (standardize_columns counted)).
Proof.
  assert (H : forall name, name ∈ columns counted ->
                normalize_column name ∉ five).
  { intros name Hin. unfold counted in Hin. cbn in Hin.
    repeat (apply elem_of_cons in Hin as [->|Hin]);
      [| |by apply elem_of_nil in Hin];
      apply (bool_decide_unpack _); vm_compute; exact I. }
  split; [exact H|].
  exact (unknown_columns_only plain_library counted H).
Defined.

Lemma colliding_known_labels_raise_witness :
  "city" ∈ five
  /\ carried_twice "city" (normalize_column <$> columns two_cities)
  /\ exists e, cleaned plain_library two_cities = Raise e.
Proof.
  assert (H5 : "city" ∈ five).
  { apply (bool_decide_unpack _). vm_compute. exact I. }
  assert (Ht : carried_twice "city" (normalize_column <$> columns two_cities)).
  { exists 0%nat, 1%nat. split; [lia|]. split; vm_compute; reflexivity. }
  split; [exact H5|]. split; [exact Ht|].
  exact (colliding_known_labels_raise plain_library two_cities "city" H5 Ht).
Defined.

Lemma text_coordinates_raise_witness :
  NoDup (normalize_column <$> columns north)
  /\ comparable (text_column [Some "39.1"; Some "north"]) = false
  /\ cleaned plain_library north = Raise TypeError.
Proof.
  assert (Hnd : NoDup (normalize_column <$> columns north)).
  { apply (bool_decide_unpack _). vm_compute. exact I. }
  split; [exact Hnd|]. split; [reflexivity|].
  apply (text_coordinates_raise plain_library north "Latitude"
           (text_column [Some "39.1"; Some "north"]) Hnd).
  - apply list_elem_of_here.
  - left. vm_compute. reflexivity.
  - reflexivity.
Defined.






